(** * hatch_build.py: the frontend build hook of streamlit-javascript

    A shallow embedding of [BuildFrontendHook] and the properties of its
    orchestration sequence.  Python text is a sequence of code points;
    the process state (working directory, log file object, subprocesses
    started so far) is threaded explicitly through a state-and-exception
    monad; everything the operating system decides (file contents,
    subprocess outcomes, which directories exist or were removed) is read
    from an environment record. *)

From Stdlib Require Import List ZArith NArith Bool Lia String Ascii.
From Stdlib Require Import DecimalString.
Import ListNotations.
Open Scope string_scope.
Open Scope list_scope.

Set Warnings "-register-all".

(** ** Python [str] *)

Module PyStr.

(** A [str] is a sequence of Unicode code points. *)
Definition pystr := list N.

Definition lit (s : string) : pystr :=
  map (fun a => N_of_ascii a) (list_ascii_of_string s).

(** [a == b] *)
Fixpoint eqb (a b : pystr) : bool :=
  match a, b with
  | [], [] => true
  | x :: a', y :: b' => N.eqb x y && eqb a' b'
  | _, _ => false
  end.

(** [" " * n]: a negative count gives the empty string. *)
Definition repeat_str (s : pystr) (n : Z) : pystr :=
  List.concat (repeat s (Z.to_nat n)).

(** The characters at which [str.splitlines] ends a line. *)
Definition is_linebreak (c : N) : bool :=
  match c with
  | 10 | 11 | 12 | 13 | 28 | 29 | 30 | 133 | 8232 | 8233 => true
  | _ => false
  end%N.

(** The characters [str.strip] removes (those with [str.isspace]). *)
Definition is_space (c : N) : bool :=
  match c with
  | 9 | 10 | 11 | 12 | 13 | 28 | 29 | 30 | 31 | 32
  | 133 | 160 | 5760 | 8232 | 8233 | 8239 | 8287 | 12288 => true
  | _ => ((8192 <=? c) && (c <=? 8202))
  end%N.

(** [str.splitlines()]: [cur] holds the current line, last character first.
    A carriage return followed by a line feed is one boundary; a final
    line without a boundary is kept unless it is empty. *)
Fixpoint splitlines_from (cur : pystr) (s : pystr) : list pystr :=
  match s with
  | [] => match cur with [] => [] | _ => [rev cur] end
  | c :: rest =>
      if is_linebreak c then
        rev cur ::
          match rest with
          | d :: rest' =>
              if ((c =? 13) && (d =? 10))%N then splitlines_from [] rest'
              else splitlines_from [] rest
          | [] => splitlines_from [] rest
          end
      else splitlines_from (c :: cur) rest
  end.

Definition splitlines (s : pystr) : list pystr := splitlines_from [] s.

Fixpoint lstrip (s : pystr) : pystr :=
  match s with
  | c :: rest => if is_space c then lstrip rest else s
  | [] => []
  end.

Definition rstrip (s : pystr) : pystr := rev (lstrip (rev s)).

(** [str.strip()] *)
Definition strip (s : pystr) : pystr := rstrip (lstrip s).

(** Truth value of a [str]: non-empty. *)
Definition truthy (s : pystr) : bool :=
  match s with [] => false | _ :: _ => true end.

Fixpoint starts_with (p s : pystr) : bool :=
  match p, s with
  | [], _ => true
  | a :: p', b :: s' => N.eqb a b && starts_with p' s'
  | _ :: _, [] => false
  end.

(** [needle in hay] on two strings. *)
Fixpoint contains (needle hay : pystr) : bool :=
  starts_with needle hay ||
  match hay with
  | [] => false
  | _ :: hay' => contains needle hay'
  end.

(** [sep.join(parts)] *)
Fixpoint join (sep : pystr) (parts : list pystr) : pystr :=
  match parts with
  | [] => []
  | [p] => p
  | p :: ps => p ++ sep ++ join sep ps
  end.

(** The code points UTF-8 cannot encode: the surrogates. *)
Definition is_surrogate (c : N) : bool := ((55296 <=? c) && (c <=? 57343))%N.

(** [s.encode("utf-8")] succeeds. *)
Definition encodable (s : pystr) : bool :=
  forallb (fun c => negb (is_surrogate c)) s.

(** [str(n)] on an [int]. *)
Definition of_int (n : Z) : pystr := lit (NilZero.string_of_int (Z.to_int n)).

End PyStr.
Import PyStr.

(** ** Values, paths, exceptions *)

(** What [json.load] can return. *)
Inductive pyobj : Type :=
| PyNone
| PyBool (b : bool)
| PyInt (n : Z)
| PyFloat (repr : pystr)
| PyStr (s : pystr)
| PyList (items : list pyobj)
| PyDict (items : list (pystr * pyobj)).

(** An absolute [pathlib.Path]: drive and root, then the components. *)
Record Path : Type := mkPath { anchor : pystr; parts : list pystr }.

Definition path_div (p : Path) (name : string) : Path :=
  mkPath (anchor p) (parts p ++ [lit name]).

Record os_error : Type := mkOsError { errno : Z; strerror : pystr }.

(** What a [UnicodeDecodeError] reports: where decoding stopped, and why. *)
Record decode_error : Type := mkDecodeError { start : Z; reason : pystr }.

(** Text obtained by strict UTF-8 decoding: it holds no surrogate. *)
Record decoded : Type :=
  mkDecoded { text :> pystr; text_encodable : encodable text = true }.

(** Strict decoding of a text in which undecodable bytes are written as
    lone surrogates. *)
Definition decode_strict (s : pystr) : option decoded :=
  match encodable s as b return encodable s = b -> option decoded with
  | true => fun H => Some (mkDecoded s H)
  | false => fun _ => None
  end eq_refl.

Definition no_text : decoded := mkDecoded [] eq_refl.

(** [FileNotFoundError(2, "No such file or directory")] *)
Definition no_such_directory : os_error :=
  mkOsError 2 (lit "No such file or directory").

Inductive exn : Type :=
| BuildErrorException (msg : pystr)
| JSONDecodeError (msg doc : pystr) (pos : Z)
| OSError (e : os_error)
| TypeError
| KeyError (key : pystr)
| UnicodeDecodeError (e : decode_error)
| UnicodeEncodeError (object : pystr).

(** [isinstance(e, BuildErrorException)] *)
Definition is_BuildErrorException (e : exn) : bool :=
  match e with BuildErrorException _ => true | _ => false end.

(** [isinstance(e, json.decoder.JSONDecodeError)] *)
Definition is_JSONDecodeError (e : exn) : bool :=
  match e with JSONDecodeError _ _ _ => true | _ => false end.

(** The captured output is text decoded strictly from UTF-8. *)
Record CompletedProcess : Type :=
  mkCompleted { returncode : Z; stdout : decoded; stderr : decoded }.

(** The arguments of one [subprocess.run] call. *)
Record invocation : Type :=
  mkInvocation { args : list pystr; executable : pystr; run_cwd : pystr }.

(** The child ran and its output decoded, or it could not be started, or
    it ran and printed bytes that are not UTF-8. *)
Inductive proc_outcome : Type :=
| Completed (r : CompletedProcess)
| SpawnFailed (e : os_error)
| Undecodable (e : decode_error).

Definition proc_event : Type := (invocation * proc_outcome)%type.

(** What [json.load] does with a file: it reads and decodes the content,
    then parses it. *)
Inductive json_result : Type :=
| JsonValue (v : pyobj)
| JsonSyntaxError (msg doc : pystr) (pos : Z)
| JsonUndecodable (e : decode_error).

(** Operations on the log file object, in the order they were performed.
    [LWrite] carries the text handed to [write]. *)
Inductive log_op : Type :=
| LWrite (text : pystr)
| LFlush
| LClose.

(** ** Environment and process state *)

Inductive os_platform : Type := Posix | Windows.

(** Everything decided outside the hook.  Subprocess outcomes and the
    directories that exist may depend on the subprocesses run so far.
    [open_package_json] gives the content of the manifest when it can be
    opened and [json_loads] what [json.load] makes of a file with that
    content; [removes h inv] lists the directories that the call [inv],
    made after the calls [h], removes. *)
Record Env : Type := mkEnv {
  platform : os_platform;
  PACKAGE_DIR : Path;
  open_setup_log : option os_error;
  open_package_json : os_error + pystr;
  json_loads : pystr -> json_result;
  container_repr : pyobj -> pystr;
  is_dir : list proc_event -> Path -> bool;
  subprocess_run : list proc_event -> invocation -> proc_outcome;
  removes : list proc_event -> invocation -> list pystr
}.

(** [os.linesep] *)
Definition os_linesep (E : Env) : pystr :=
  match platform E with
  | Posix => [10%N]
  | Windows => [13%N; 10%N]
  end.

(** [os.sep] *)
Definition os_sep (E : Env) : pystr :=
  match platform E with
  | Posix => [47%N]
  | Windows => [92%N]
  end.

Record World : Type := mkWorld {
  cwd : pystr;
  log_file : list log_op;
  procs : list proc_event
}.

Definition set_cwd (d : pystr) (w : World) : World :=
  mkWorld d (log_file w) (procs w).

Definition set_log (l : list log_op) (w : World) : World :=
  mkWorld (cwd w) l (procs w).

Definition set_procs (p : list proc_event) (w : World) : World :=
  mkWorld (cwd w) (log_file w) p.

(** ** State and exception monad *)

Inductive result (A : Type) : Type :=
| Ok (a : A)
| Raise (e : exn).
Arguments Ok {A} a.
Arguments Raise {A} e.

Definition M (A : Type) : Type := World -> result A * World.

Definition ret {A} (a : A) : M A := fun w => (Ok a, w).

Definition raise {A} (e : exn) : M A := fun w => (Raise e, w).

Definition bind {A B} (m : M A) (k : A -> M B) : M B :=
  fun w =>
    match m w with
    | (Ok a, w') => k a w'
    | (Raise e, w') => (Raise e, w')
    end.

Notation "x <- m ;; k" := (bind m (fun x => k))
  (at level 61, m at next level, right associativity).
Notation "m ;; k" := (bind m (fun _ => k))
  (at level 61, right associativity).

(** [try: body finally: fin] — [fin] runs on every exit of [body]; an
    exception of [fin] replaces the outcome of [body]. *)
Definition try_finally {A} (body : M A) (fin : M unit) : M A :=
  fun w =>
    let (r, w1) := body w in
    match fin w1 with
    | (Ok _, w2) => (r, w2)
    | (Raise e, w2) => (Raise e, w2)
    end.

(** [try: body except json.decoder.JSONDecodeError as exc: handler exc] *)
Definition try_except_JSONDecodeError {A}
    (body : M A) (handler : pystr -> pystr -> Z -> M A) : M A :=
  fun w =>
    match body w with
    | (Raise (JSONDecodeError msg doc pos), w') => handler msg doc pos w'
    | other => other
    end.

Fixpoint for_each {A} (l : list A) (body : A -> M unit) : M unit :=
  match l with
  | [] => ret tt
  | x :: xs => body x ;; for_each xs body
  end.

(** ** Primitive effects *)

Definition os_getcwd : M pystr := fun w => (Ok (cwd w), w).

(** Whether one of the calls [evs], made after the calls [before],
    removed the directory [d]. *)
Fixpoint removed_since (E : Env) (before evs : list proc_event) (d : pystr)
  : bool :=
  match evs with
  | [] => false
  | ev :: rest =>
      existsb (eqb d) (removes E before (fst ev))
      || removed_since E (before ++ [ev]) rest d
  end.

(** [os.chdir(d)].  The two directories the hook enters exist when the
    hook is entered (the one holding this file, and the one [os.getcwd]
    returned); [entered] is the list of subprocess calls made by then.
    The change of directory fails when a subprocess started since has
    removed [d]. *)
Definition os_chdir (E : Env) (entered : list proc_event) (d : pystr) : M unit :=
  fun w =>
    if removed_since E entered (skipn (List.length entered) (procs w)) d
    then (Raise (OSError no_such_directory), w)
    else (Ok tt, set_cwd d w).

(** The state after further operations on the log file. *)
Definition logged (ops : list log_op) (w : World) : World :=
  set_log (log_file w ++ ops) w.

(** The state after one more subprocess call. *)
Definition spawned (ev : proc_event) (w : World) : World :=
  set_procs (procs w ++ [ev]) w.

(** [log_file.write(text)]: the text is encoded as UTF-8 when it is
    written; nothing of it is written when that fails. *)
Definition log_write (text : pystr) : M unit :=
  fun w =>
    if encodable text then (Ok tt, logged [LWrite text] w)
    else (Raise (UnicodeEncodeError text), w).

Definition log_flush : M unit :=
  fun w => (Ok tt, logged [LFlush] w).

Definition path_str (E : Env) (p : Path) : pystr :=
  anchor p ++ join (os_sep E) (parts p).

(** [with open("setup.log", mode="w", encoding="utf-8") as log_file:]
    a fresh, empty file object, closed when the block is left. *)
Definition with_open_setup_log {A} (E : Env) (body : M A) : M A :=
  match open_setup_log E with
  | Some e => raise (OSError e)
  | None =>
      fun w =>
        let (r, w') := body (set_log [] w) in
        (r, logged [LClose] w')
  end.

(** [subprocess.run(args, executable=..., cwd=..., capture_output=True,
    text=True, encoding="utf-8")]: the call is recorded whether or not
    the child could be started and its output decoded. *)
Definition run_subprocess (E : Env) (inv : invocation) : M CompletedProcess :=
  fun w =>
    let out := subprocess_run E (procs w) inv in
    let w' := spawned (inv, out) w in
    match out with
    | Completed r => (Ok r, w')
    | SpawnFailed e => (Raise (OSError e), w')
    | Undecodable e => (Raise (UnicodeDecodeError e), w')
    end.

Definition path_is_dir (E : Env) (p : Path) : M bool :=
  fun w => (Ok (is_dir E (procs w) p), w).

(** ** Python operators used on the parsed manifest *)

(** [x == key] for a parsed value [x] and a string [key]. *)
Definition py_eq_str (x : pyobj) (key : pystr) : bool :=
  match x with
  | PyStr s => eqb s key
  | _ => false
  end.

(** [key in container] *)
Definition py_in (key : pystr) (container : pyobj) : M bool :=
  match container with
  | PyDict items => ret (existsb (fun kv => eqb (fst kv) key) items)
  | PyList items => ret (existsb (fun x => py_eq_str x key) items)
  | PyStr s => ret (contains key s)
  | PyNone | PyBool _ | PyInt _ | PyFloat _ => raise TypeError
  end.

(** [container[key]] with a string key *)
Definition py_getitem (container : pyobj) (key : pystr) : M pyobj :=
  match container with
  | PyDict items =>
      match find (fun kv => eqb (fst kv) key) items with
      | Some kv => ret (snd kv)
      | None => raise (KeyError key)
      end
  | _ => raise TypeError
  end.

(** [f"{x}"]: a string is inserted as it is; the text of a float is the
    one the parser kept; containers are formatted by the interpreter. *)
Definition py_format (E : Env) (x : pyobj) : pystr :=
  match x with
  | PyStr s => s
  | PyInt n => of_int n
  | PyBool true => lit "True"
  | PyBool false => lit "False"
  | PyNone => lit "None"
  | PyFloat repr => repr
  | PyList _ | PyDict _ => container_repr E x
  end.

(** ** The hook *)

Definition PACKAGE_MGR : pystr := lit "npm".
Definition PACKAGE_NAME : pystr := lit "streamlit-javascript".
Definition STREAMLIT_VERSION : pystr := lit "1.42.0".

Definition frontend_dir (E : Env) : Path :=
  path_div (path_div (PACKAGE_DIR E) "streamlit_javascript") "frontend".
Definition modules_dir (E : Env) : Path := path_div (frontend_dir E) "node_modules".
Definition build_dir (E : Env) : Path := path_div (frontend_dir E) "build".

Definition _msg_log (E : Env) (msg : pystr) (indent : Z) : M unit :=
  for_each (splitlines msg) (fun line =>
    if truthy (strip line)
    then log_write (repeat_str (lit " ") indent ++ line ++ os_linesep E)
    else ret tt) ;;
  log_flush.

Definition _msg_run (E : Env) (result : CompletedProcess) (indent : Z)
  : M CompletedProcess :=
  _msg_log E (lit "RC:" ++ of_int (returncode result)) indent ;;
  _msg_log E (lit "STDOUT:") indent ;;
  _msg_log E (stdout result) (indent + 2) ;;
  _msg_log E (lit "STDERR:") indent ;;
  _msg_log E (stderr result) (indent + 2) ;;
  ret result.

Definition package_json_path (E : Env) : Path :=
  path_div (frontend_dir E) "package.json".

(** [with open(package_json_path, mode="r", encoding="utf-8") as pkg_json:]
    the body gets the content of the file, not yet decoded. *)
Definition with_open_package_json {A} (E : Env) (body : pystr -> M A) : M A :=
  match open_package_json E with
  | inl e => raise (OSError e)
  | inr text => body text
  end.

(** [json.load(pkg_json)]: reading the file decodes it, which can fail
    before any parsing. *)
Definition json_load (E : Env) (text : pystr) : M pyobj :=
  match json_loads E text with
  | JsonValue v => ret v
  | JsonSyntaxError msg doc pos => raise (JSONDecodeError msg doc pos)
  | JsonUndecodable e => raise (UnicodeDecodeError e)
  end.

Definition _check_package_json (E : Env) : M unit :=
  _msg_log E (lit "Checking package.json version...") 0 ;;
  with_open_package_json E (fun pkg_json =>
    try_except_JSONDecodeError
      (pkg_desc <- json_load E pkg_json ;;
       has_version <- py_in (lit "version") pkg_desc ;;
       if negb has_version then
         _msg_log E (lit "WARNING: package.json:version is missing, should be "
                     ++ STREAMLIT_VERSION) 0
       else
         found <- py_getitem pkg_desc (lit "version") ;;
         if negb (py_eq_str found STREAMLIT_VERSION) then
           found' <- py_getitem pkg_desc (lit "version") ;;
           _msg_log E (lit "WARNING: package.json:version should be "
                       ++ STREAMLIT_VERSION ++ lit " not " ++ py_format E found') 0
         else ret tt)
      (fun msg _ pos =>
         _msg_log E (lit "Unable to read package.json file - syntax error") 0 ;;
         raise (JSONDecodeError (lit "package.json: " ++ msg)
                                (path_str E (package_json_path E)) pos))).

Definition _check_need_protobuf (E : Env) : M unit :=
  _msg_log E (PACKAGE_NAME ++ lit " does not use protobuf...") 0.

Definition _show_msg_if_build_dir_exists (E : Env) : M unit :=
  _msg_log E (lit "Checking if frontend has already been built...") 0 ;;
  found <- path_is_dir E (build_dir E) ;;
  if found then _msg_log E (lit "Found build directory") 2 else ret tt.

Definition _show_msg_if_modules_dir_exists (E : Env) : M unit :=
  _msg_log E (lit "Checking if node_modules exists...") 0 ;;
  found <- path_is_dir E (modules_dir E) ;;
  if found then _msg_log E (lit "Found node_modules directory") 2 else ret tt.

Definition node_version (E : Env) : invocation :=
  mkInvocation [lit "node"; lit "--version"] (lit "node")
               (path_str E (PACKAGE_DIR E)).

Definition pkgmgr_version (E : Env) : invocation :=
  mkInvocation [PACKAGE_MGR; lit "--version"] PACKAGE_MGR
               (path_str E (PACKAGE_DIR E)).

Definition corepack_enable (E : Env) : invocation :=
  mkInvocation [lit "corepack"; lit "enable"] (lit "corepack")
               (path_str E (PACKAGE_DIR E)).

Definition pkgmgr_install (E : Env) : invocation :=
  mkInvocation [PACKAGE_MGR; lit "install"] PACKAGE_MGR
               (path_str E (frontend_dir E)).

Definition pkgmgr_build (E : Env) : invocation :=
  mkInvocation [PACKAGE_MGR; lit "run"; lit "build"] PACKAGE_MGR
               (path_str E (frontend_dir E)).

Definition pkgmgr_audit (E : Env) : invocation :=
  mkInvocation [PACKAGE_MGR; lit "audit"] PACKAGE_MGR
               (path_str E (frontend_dir E)).

Definition _check_node_installed (E : Env) : M CompletedProcess :=
  _msg_log E (lit "Checking node is installed...") 0 ;;
  ran <- run_subprocess E (node_version E) ;;
  result <- _msg_run E ran 2 ;;
  if negb (returncode result =? 0)%Z then
    raise (BuildErrorException
             (lit "Could not find node - it is required for React components"))
  else ret result.

Definition _check_pkgmgr_installed (E : Env) : M CompletedProcess :=
  _msg_log E (lit "Checking " ++ PACKAGE_MGR ++ lit " is installed...") 0 ;;
  ran <- run_subprocess E (pkgmgr_version E) ;;
  result <- _msg_run E ran 2 ;;
  result <-
    (if eqb PACKAGE_MGR (lit "yarn") then
       _msg_log E (lit "Checking yarn corepack is installed") 0 ;;
       ran' <- run_subprocess E (corepack_enable E) ;;
       result' <- _msg_run E ran' 2 ;;
       if negb (returncode result' =? 0)%Z then
         raise (BuildErrorException
                  (lit "Could not find corepack/" ++ PACKAGE_MGR
                   ++ lit " - it is required to install node packages"))
       else ret result'
     else ret result) ;;
  if negb (returncode result =? 0)%Z then
    raise (BuildErrorException
             (lit "Could not find " ++ PACKAGE_MGR
              ++ lit " - it is required to install node packages"))
  else ret result.

Definition _run_install (E : Env) : M CompletedProcess :=
  _msg_log E (lit "Running " ++ PACKAGE_MGR ++ lit " install...") 0 ;;
  ran <- run_subprocess E (pkgmgr_install E) ;;
  _msg_run E ran 2.

Definition _run_build (E : Env) : M CompletedProcess :=
  _msg_log E (lit "Running " ++ PACKAGE_MGR ++ lit " run build...") 0 ;;
  ran <- run_subprocess E (pkgmgr_build E) ;;
  _msg_run E ran 2.

Definition _run_npm_audit (E : Env) : M CompletedProcess :=
  _msg_log E (lit "Running npm audit...") 0 ;;
  ran <- run_subprocess E (pkgmgr_audit E) ;;
  _msg_run E ran 2.

Definition _check_build_output_ok (E : Env) : M unit :=
  _msg_log E (lit "Checking if frontend was built...") 0 ;;
  found <- path_is_dir E (build_dir E) ;;
  if found then _msg_log E (lit "Found build directory") 2
  else raise (BuildErrorException (lit "Failed to create output directory")).

Definition _run (E : Env) : M unit :=
  (* Pre-install checks *)
  _check_package_json E ;;
  _check_need_protobuf E ;;
  _show_msg_if_build_dir_exists E ;;
  _show_msg_if_modules_dir_exists E ;;
  _check_node_installed E ;;
  _check_pkgmgr_installed E ;;
  (* Install + build *)
  result <- _run_install E ;;
  (if contains (lit "npm audit fix") (stdout result)
   then _run_npm_audit E ;; ret tt
   else ret tt) ;;
  _run_build E ;;
  (* Post-install checks *)
  _check_build_output_ok E.

Definition initialize (E : Env) (version : pystr)
    (build_data : list (pystr * pyobj)) : M unit :=
  fun entry =>
    (original_directory <- os_getcwd ;;
     try_finally
       (os_chdir E (procs entry) (path_str E (PACKAGE_DIR E)) ;;
        with_open_setup_log E (_run E))
       (os_chdir E (procs entry) original_directory)) entry.

(** ** What the specification says of the log and of the subprocesses *)

(** A line is blank when it has no character other than white space. *)
Definition nonblank (line : pystr) : bool :=
  existsb (fun c => negb (is_space c)) line.

(** The lines a logging call is to write: the non-blank lines of the
    message, in order, each after [indent] spaces and before the platform
    line separator. *)
Definition logged_lines (E : Env) (msg : pystr) (indent : Z) : list pystr :=
  map (fun line => repeat 32%N (Z.to_nat indent) ++ line ++ os_linesep E)
      (filter nonblank (splitlines msg)).

(** The operations one logging call performs on the log file. *)
Definition msg_ops (E : Env) (msg : pystr) (indent : Z) : list log_op :=
  map LWrite (logged_lines E msg indent) ++ [LFlush].

(** The first of the lines that cannot be encoded, with the lines before
    it. *)
Fixpoint first_unencodable (lines : list pystr) : option (list pystr * pystr) :=
  match lines with
  | [] => None
  | line :: rest =>
      if encodable line then
        match first_unencodable rest with
        | Some (before, bad) => Some (line :: before, bad)
        | None => None
        end
      else Some ([], line)
  end.

(** The operations that log one subprocess result. *)
Definition run_ops (E : Env) (r : CompletedProcess) (indent : Z) : list log_op :=
  msg_ops E (lit "RC:" ++ of_int (returncode r)) indent ++
  msg_ops E (lit "STDOUT:") indent ++
  msg_ops E (stdout r) (indent + 2) ++
  msg_ops E (lit "STDERR:") indent ++
  msg_ops E (stderr r) (indent + 2).

(** A text without any line boundary. *)
Definition single_line (s : pystr) : bool :=
  forallb (fun c => negb (is_linebreak c)) s.

Fixpoint args_eqb (a b : list pystr) : bool :=
  match a, b with
  | [], [] => true
  | x :: a', y :: b' => eqb x y && args_eqb a' b'
  | _, _ => false
  end.

(** How many of the events are calls of the command line [cmd]. *)
Definition invoked (cmd : list string) (evs : list proc_event) : nat :=
  List.length (filter (fun ev => args_eqb (args (fst ev)) (map lit cmd)) evs).

(** The subprocesses a computation started: the events it added. *)
Definition started {A} (m : M A) (w : World) : list proc_event :=
  skipn (List.length (procs w)) (procs (snd (m w))).

(** The outcome of the first call of the command line [cmd], if any. *)
Fixpoint outcome_of (cmd : list string) (evs : list proc_event)
  : option proc_outcome :=
  match evs with
  | [] => None
  | ev :: rest =>
      if args_eqb (args (fst ev)) (map lit cmd) then Some (snd ev)
      else outcome_of cmd rest
  end.

(** [needle] occurs in [hay] as a contiguous run of characters. *)
Definition substring (needle hay : pystr) : Prop :=
  exists pre post, hay = pre ++ needle ++ post.

(** The two warnings of the manifest check. *)
Definition missing_warning : pystr :=
  lit "WARNING: package.json:version is missing, should be " ++ STREAMLIT_VERSION.

Definition mismatch_warning (found : pystr) : pystr :=
  lit "WARNING: package.json:version should be " ++ STREAMLIT_VERSION
  ++ lit " not " ++ found.

(** The messages of the three fatal build errors that can be reached. *)
Definition node_missing : pystr :=
  lit "Could not find node - it is required for React components".
Definition pkgmgr_missing : pystr :=
  lit "Could not find npm - it is required to install node packages".
Definition output_missing : pystr :=
  lit "Failed to create output directory".

(** The first line of the manifest check. *)
Definition checking_manifest (E : Env) : list log_op :=
  msg_ops E (lit "Checking package.json version...") 0.

(** A computation that leaves the working directory as it found it. *)
Definition keeps_cwd {A} (m : M A) : Prop :=
  forall w, cwd (snd (m w)) = cwd w.

(** The subprocess calls of a full run, in order; the audit is optional. *)
Definition pipeline (E : Env) (audit : bool) : list invocation :=
  [node_version E; pkgmgr_version E; pkgmgr_install E]
  ++ (if audit then [pkgmgr_audit E] else [])
  ++ [pkgmgr_build E].

Definition is_close (op : log_op) : bool :=
  match op with LClose => true | _ => false end.

(** The texts handed to [write], in order. *)
Fixpoint written (ops : list log_op) : list pystr :=
  match ops with
  | [] => []
  | LWrite text :: rest => text :: written rest
  | _ :: rest => written rest
  end.

(** The characters of a text that are not white space. *)
Definition visible (s : pystr) : pystr :=
  filter (fun c => negb (is_space c)) s.

Definition is_encode_error {A} (r : result A) : bool :=
  match r with Raise (UnicodeEncodeError _) => true | _ => false end.

(** A computation that only appends to the log, never closes it, and,
    unless a write failed, leaves nothing written without a flush after
    it. *)
Definition logs_cleanly {A} (m : M A) : Prop :=
  forall w, exists ops,
    log_file (snd (m w)) = log_file w ++ ops
    /\ existsb is_close ops = false
    /\ (is_encode_error (fst (m w)) = false -> last ops LFlush = LFlush).




(** ** Sample environments *)

(** A POSIX host on which every step has the outcome given as argument. *)
Module Sample.

Definition quote : pystr := [34%N].
Definition backslash : pystr := [92%N].
Definition newline : pystr := [10%N].

(** The manifest body [{"version": "<v>"}]. *)
Definition body_with_version (v : pystr) : pystr :=
  lit "{" ++ quote ++ lit "version" ++ quote ++ lit ": "
  ++ quote ++ v ++ quote ++ lit "}".

(** The body [{"version": ], cut short. *)
Definition truncated_body : pystr :=
  lit "{" ++ quote ++ lit "version" ++ quote ++ lit ": ".

(** The answers of [json.loads] on the bodies used here. *)
Definition parse (body : pystr) : json_result :=
  if eqb body (body_with_version (lit "1.42.0")) then
    JsonValue (PyDict [(lit "version", PyStr (lit "1.42.0"))])
  else if eqb body (body_with_version (lit "1.0.0")) then
    JsonValue (PyDict [(lit "version", PyStr (lit "1.0.0"))])
  else if eqb body (body_with_version (lit "1.0.0" ++ backslash ++ lit "nbeta")) then
    JsonValue (PyDict [(lit "version", PyStr (lit "1.0.0" ++ newline ++ lit "beta"))])
  else if eqb body (body_with_version (backslash ++ lit "ud800")) then
    JsonValue (PyDict [(lit "version", PyStr [55296%N])])
  else if eqb body (body_with_version
                      (lit "1.0.0" ++ backslash ++ lit "n" ++ backslash ++ lit "ud800"))
  then
    JsonValue (PyDict [(lit "version", PyStr (lit "1.0.0" ++ newline ++ [55296%N]))])
  else if eqb body (lit "{}") then JsonValue (PyDict [])
  else if eqb body [255%N; 254%N] then
    JsonUndecodable (mkDecodeError 0 (lit "invalid start byte"))
  else if eqb body (lit "42") then JsonValue (PyInt 42)
  else if eqb body truncated_body then JsonSyntaxError (lit "Expecting value") body 12
  else JsonSyntaxError (lit "Expecting value") body 0.

Definition completed_build (ev : proc_event) : bool :=
  match ev with
  | (inv, Completed _) => args_eqb (args inv) [lit "npm"; lit "run"; lit "build"]
  | _ => false
  end.

Definition last_part (p : Path) : pystr := last (parts p) [].

Definition env (manifest : os_error + pystr)
    (node npm_version install audit build : proc_outcome) (built : bool) : Env :=
  {| platform := Posix;
     PACKAGE_DIR := mkPath (lit "/") [lit "srv"; lit "streamlit-javascript"];
     open_setup_log := None;
     open_package_json := manifest;
     json_loads := parse;
     container_repr := fun _ => lit "{...}";
     is_dir := fun history p =>
       eqb (last_part p) (lit "build") && existsb completed_build history && built;
     subprocess_run := fun _ inv =>
       match args inv with
       | [prog; sub] =>
           if eqb prog (lit "node") then node
           else if eqb sub (lit "--version") then npm_version
           else if eqb sub (lit "install") then install
           else audit
       | _ => build
       end;
     removes := fun _ _ => [] |}.

(** A child that printed the line [out] and ended with [code]. *)
Definition exit (code : Z) (out : string) : proc_outcome :=
  match decode_strict (lit out ++ newline) with
  | Some printed => Completed (mkCompleted code printed no_text)
  | None => Undecodable (mkDecodeError 0 (lit "invalid start byte"))
  end.

Definition ENOENT : os_error := mkOsError 2 (lit "No such file or directory").

Definition world : World := mkWorld (lit "/home/dev") [] [].

(** A host where everything succeeds, for the manifest body [body]. *)
Definition healthy (body : pystr) : Env :=
  env (inr body) (exit 0 "v20.11.0") (exit 0 "10.2.4")
      (exit 0 "added 1432 packages in 41s") (exit 0 "found 0 vulnerabilities")
      (exit 0 "Compiled successfully.") true.


Definition outdated_manifest : Env := healthy (body_with_version (lit "1.0.0")).

(** The version ["1.0.0\nbeta"], written in the body with an escape. *)
Definition multiline_version : Env :=
  healthy (body_with_version (lit "1.0.0" ++ backslash ++ lit "nbeta")).

Definition number_manifest : Env := healthy (lit "42").

Definition no_manifest : Env :=
  env (inl ENOENT) (exit 0 "v20.11.0") (exit 0 "10.2.4")
      (exit 0 "") (exit 0 "") (exit 0 "") true.

Definition node_exits_127 : Env :=
  env (inr (body_with_version (lit "1.42.0")))
      (exit 127 "node: command not found") (exit 0 "10.2.4")
      (exit 0 "") (exit 0 "") (exit 0 "") true.

Definition node_not_found : Env :=
  env (inr (body_with_version (lit "1.42.0")))
      (SpawnFailed ENOENT) (exit 0 "10.2.4")
      (exit 0 "") (exit 0 "") (exit 0 "") true.

(** Install and build both exit with code 1; the build directory is there. *)
Definition failing_exit_codes : Env :=
  env (inr (body_with_version (lit "1.42.0")))
      (exit 0 "v20.11.0") (exit 0 "10.2.4")
      (exit 1 "npm ERR! code ERESOLVE") (exit 0 "")
      (exit 1 "npm ERR! Missing script: build") true.

(** The build exits with code 0 and leaves no build directory. *)
Definition no_output : Env :=
  env (inr (body_with_version (lit "1.42.0")))
      (exit 0 "v20.11.0") (exit 0 "10.2.4")
      (exit 0 "up to date") (exit 0 "")
      (exit 0 "") false.

(** The install step reports vulnerabilities and suggests the fix. *)
Definition audit_suggested : Env :=
  env (inr (body_with_version (lit "1.42.0")))
      (exit 0 "v20.11.0") (exit 0 "10.2.4")
      (exit 0 "8 vulnerabilities; to address all issues, run: npm audit fix")
      (exit 1 "found 8 vulnerabilities") (exit 0 "Compiled successfully.") true.

Definition EACCES : os_error := mkOsError 13 (lit "Permission denied").

(** The healthy host, but [setup.log] cannot be created. *)
Definition locked_log : Env :=
  let E := healthy (body_with_version (lit "1.42.0")) in
  {| platform := platform E;
     PACKAGE_DIR := PACKAGE_DIR E;
     open_setup_log := Some EACCES;
     open_package_json := open_package_json E;
     json_loads := json_loads E;
     container_repr := container_repr E;
     is_dir := is_dir E;
     subprocess_run := subprocess_run E;
     removes := removes E |}.

(** The package manager answers its version check with exit code 1. *)
Definition npm_exits_1 : Env :=
  env (inr (body_with_version (lit "1.42.0")))
      (exit 0 "v20.11.0") (exit 1 "npm ERR!")
      (exit 0 "") (exit 0 "") (exit 0 "") true.


(** The version is a lone surrogate, written in the body as an escape. *)
Definition surrogate_version : Env :=
  healthy (body_with_version (backslash ++ lit "ud800")).

(** The version ["1.0.0\n\ud800"]: a line that can be written, then one
    that cannot. *)
Definition half_written_version : Env :=
  healthy (body_with_version
             (lit "1.0.0" ++ backslash ++ lit "n" ++ backslash ++ lit "ud800")).

(** The manifest holds the two bytes FF FE, which are not UTF-8. *)
Definition undecodable_manifest : Env := healthy [255%N; 254%N].

(** The node version check prints bytes that are not UTF-8. *)
Definition node_prints_garbage : Env :=
  env (inr (body_with_version (lit "1.42.0")))
      (Undecodable (mkDecodeError 0 (lit "invalid start byte"))) (exit 0 "10.2.4")
      (exit 0 "") (exit 0 "") (exit 0 "") true.

(** The healthy host, but the install step removes the directory the
    process was started in. *)
Definition start_directory_removed : Env :=
  let E := healthy (body_with_version (lit "1.42.0")) in
  {| platform := platform E;
     PACKAGE_DIR := PACKAGE_DIR E;
     open_setup_log := open_setup_log E;
     open_package_json := open_package_json E;
     json_loads := json_loads E;
     container_repr := container_repr E;
     is_dir := is_dir E;
     subprocess_run := subprocess_run E;
     removes := fun _ inv =>
       if args_eqb (args inv) [lit "npm"; lit "install"]
       then [lit "/home/dev"] else [] |}.

End Sample.

(** ** Strings *)

Lemma eqb_eq a b : eqb a b = true <-> a = b.
Proof.
  revert b; induction a as [|x a IH]; intros [|y b]; simpl;
    try (split; (reflexivity || discriminate)).
  rewrite andb_true_iff, N.eqb_eq, IH.
  split; [intros [-> ->]; reflexivity | intros [= -> ->]; auto].
Qed.

Lemma eqb_refl a : eqb a a = true.
Proof. apply eqb_eq; reflexivity. Qed.

Lemma starts_with_spec p s :
  starts_with p s = true <-> exists post, s = p ++ post.
Proof.
  revert s; induction p as [|a p IH]; intros s; simpl.
  - split; [exists s; reflexivity | reflexivity].
  - destruct s as [|b s].
    + split; [discriminate | intros [post H]; discriminate].
    + rewrite andb_true_iff, N.eqb_eq, IH. split.
      * intros [-> [post ->]]. exists post. reflexivity.
      * intros [post [= -> ->]]. split; [reflexivity | exists post; reflexivity].
Qed.

(** [contains] decides the substring relation. *)
Lemma contains_spec needle hay :
  contains needle hay = true <-> exists pre post, hay = pre ++ needle ++ post.
Proof.
  induction hay as [|c hay IH].
  - simpl. rewrite orb_false_r, starts_with_spec. split.
    + intros [post ->]. exists [], post. reflexivity.
    + intros [[|x pre] [post H]]; [exists post; exact H | discriminate].
  - change (contains needle (c :: hay))
      with (starts_with needle (c :: hay) || contains needle hay).
    rewrite orb_true_iff, starts_with_spec, IH. split.
    + intros [[post ->] | [pre [post ->]]].
      * exists [], post. reflexivity.
      * exists (c :: pre), post. reflexivity.
    + intros [[|x pre] [post H]].
      * left. exists post. exact H.
      * right. injection H as -> ->. exists pre, post. reflexivity.
Qed.

Lemma contains_suffix needle pre : contains needle (pre ++ needle) = true.
Proof. apply contains_spec. exists pre, []. rewrite app_nil_r. reflexivity. Qed.

Lemma contains_app_l needle s t :
  contains needle s = true -> contains needle (s ++ t) = true.
Proof.
  rewrite !contains_spec. intros [pre [post ->]].
  exists pre, (post ++ t). rewrite <- !app_assoc. reflexivity.
Qed.

Lemma lstrip_truthy s : truthy (lstrip s) = negb (forallb is_space s).
Proof.
  induction s as [|c s IH]; simpl; [reflexivity|].
  destruct (is_space c); simpl; [exact IH | reflexivity].
Qed.

Lemma lstrip_all_space s : forallb is_space (lstrip s) = forallb is_space s.
Proof.
  induction s as [|c s IH]; simpl; [reflexivity|].
  destruct (is_space c) eqn:Hc; simpl; [exact IH | rewrite Hc; reflexivity].
Qed.

Lemma truthy_rev s : truthy (rev s) = truthy s.
Proof.
  destruct s as [|c s]; simpl; [reflexivity|].
  destruct (rev s); reflexivity.
Qed.

Lemma forallb_rev {A} (f : A -> bool) l : forallb f (rev l) = forallb f l.
Proof.
  induction l as [|x l IH]; simpl; [reflexivity|].
  rewrite forallb_app, IH. simpl. rewrite andb_true_r, andb_comm. reflexivity.
Qed.

(** [line.strip()] is true exactly on the non-blank lines. *)
Lemma truthy_strip line : truthy (strip line) = nonblank line.
Proof.
  unfold strip, rstrip, nonblank.
  rewrite truthy_rev, lstrip_truthy, forallb_rev, lstrip_all_space.
  induction line as [|c s IH]; simpl; [reflexivity|].
  rewrite negb_andb, IH. reflexivity.
Qed.

Lemma repeat_space indent :
  repeat_str (lit " ") indent = repeat 32%N (Z.to_nat indent).
Proof.
  unfold repeat_str. induction (Z.to_nat indent) as [|n IH]; simpl;
    [reflexivity | rewrite IH; reflexivity].
Qed.

(** ** Text that UTF-8 can encode *)

Lemma encodable_app a b : encodable (a ++ b) = encodable a && encodable b.
Proof. apply forallb_app. Qed.

Lemma encodable_spaces n : encodable (repeat 32%N n) = true.
Proof. induction n as [|n IH]; [reflexivity | exact IH]. Qed.

Lemma encodable_linesep E : encodable (os_linesep E) = true.
Proof. unfold os_linesep. destruct (platform E); reflexivity. Qed.

(** Indent and line separator never stand in the way of a write. *)
Lemma encodable_padded E indent line :
  encodable (repeat 32%N (Z.to_nat indent) ++ line ++ os_linesep E)
  = encodable line.
Proof.
  rewrite !encodable_app, encodable_spaces, encodable_linesep, andb_true_r.
  reflexivity.
Qed.

Lemma lit_cons c s : lit (String c s) = N_of_ascii c :: lit s.
Proof. reflexivity. Qed.

Lemma encodable_uint d : encodable (lit (NilEmpty.string_of_uint d)) = true.
Proof.
  induction d; cbn [NilEmpty.string_of_uint]; rewrite ?lit_cons;
    try reflexivity; cbn [encodable forallb];
    fold (encodable (lit (NilEmpty.string_of_uint d)));
    rewrite IHd; reflexivity.
Qed.

(** The decimal text of an integer is plain ASCII. *)
Lemma encodable_of_int n : encodable (of_int n) = true.
Proof.
  assert (Hu : forall d, encodable (lit (NilZero.string_of_uint d)) = true).
  { intros d. destruct d; try reflexivity;
      match goal with
      | |- encodable (lit (NilZero.string_of_uint ?x)) = true =>
          exact (encodable_uint x)
      end. }
  unfold of_int, NilZero.string_of_int.
  destruct (Z.to_int n) as [d|d]; [apply Hu|].
  rewrite lit_cons. cbn [encodable forallb].
  change (true && encodable (lit (NilZero.string_of_uint d)) = true).
  rewrite Hu. reflexivity.
Qed.

Lemma first_unencodable_none lines :
  forallb encodable lines = true -> first_unencodable lines = None.
Proof.
  induction lines as [|l ls IH]; [reflexivity|]. simpl. intros H.
  apply andb_true_iff in H. destruct H as [Hl Hls].
  rewrite Hl, (IH Hls). reflexivity.
Qed.

(** ** Splitting a message into lines *)

Lemma splitlines_from_single cur s :
  single_line s = true ->
  splitlines_from cur s =
  match rev cur ++ s with [] => [] | line => [line] end.
Proof.
  revert cur. induction s as [|c s IH]; intros cur H; simpl.
  - rewrite app_nil_r. destruct cur as [|x cur]; simpl; [reflexivity|].
    destruct (rev cur ++ [x]) eqn:Hx; [|reflexivity].
    apply app_eq_nil in Hx. destruct Hx as [_ Hx]. discriminate.
  - simpl in H. apply andb_true_iff in H. destruct H as [Hc Hs].
    apply negb_true_iff in Hc. rewrite Hc.
    rewrite (IH (c :: cur) Hs). simpl. rewrite <- app_assoc. reflexivity.
Qed.

(** A non-empty text without line boundary is its own single line. *)
Lemma splitlines_single s :
  single_line s = true -> s <> [] -> splitlines s = [s].
Proof.
  intros H Hne. unfold splitlines. rewrite splitlines_from_single by exact H.
  simpl. destruct s; [contradiction | reflexivity].
Qed.

(** No line produced by [splitlines] holds a line boundary. *)
Lemma splitlines_from_lines n : forall s cur line,
  (List.length s <= n)%nat ->
  single_line cur = true ->
  In line (splitlines_from cur s) -> single_line line = true.
Proof.
  induction n as [|n IH]; intros s cur line Hlen Hcur Hin.
  - destruct s; [|simpl in Hlen; lia]. simpl in Hin.
    destruct cur; [contradiction|]. destruct Hin as [<-|[]].
    unfold single_line. rewrite forallb_rev. exact Hcur.
  - destruct s as [|c s]; simpl in Hin.
    + destruct cur; [contradiction|]. destruct Hin as [<-|[]].
      unfold single_line. rewrite forallb_rev. exact Hcur.
    + simpl in Hlen. destruct (is_linebreak c) eqn:Hc.
      * destruct Hin as [<-|Hin].
        { unfold single_line. rewrite forallb_rev. exact Hcur. }
        destruct s as [|d s'].
        { contradiction. }
        destruct ((c =? 13) && (d =? 10))%N.
        { apply (IH s' [] line); [simpl in Hlen; lia | reflexivity | exact Hin]. }
        { apply (IH (d :: s') [] line); [lia | reflexivity | exact Hin]. }
      * apply (IH s (c :: cur) line); [lia | | exact Hin].
        simpl. rewrite Hc. exact Hcur.
Qed.

Lemma splitlines_lines msg line :
  In line (splitlines msg) -> single_line line = true.
Proof.
  apply (splitlines_from_lines (List.length msg) msg []); [lia | reflexivity].
Qed.

Example splitlines_boundaries :
  splitlines (lit "ab" ++ [10; 10; 13; 10]%N ++ lit "c" ++ [13; 8232]%N ++ lit "d")
  = [lit "ab"; []; []; lit "c"; []; lit "d"].
Proof. reflexivity. Qed.

Example strip_spaces : strip (lit "  a b " ++ [9; 160; 12288]%N) = lit "a b".
Proof. reflexivity. Qed.
(** A property of characters that holds of a text holds of its lines. *)
Lemma splitlines_from_forallb (P : N -> bool) n : forall s cur line,
  (List.length s <= n)%nat ->
  forallb P cur = true -> forallb P s = true ->
  In line (splitlines_from cur s) -> forallb P line = true.
Proof.
  induction n as [|n IH]; intros s cur line Hlen Hcur Hs Hin.
  - destruct s; [|simpl in Hlen; lia]. simpl in Hin.
    destruct cur; [contradiction|]. destruct Hin as [<-|[]].
    rewrite forallb_rev. exact Hcur.
  - destruct s as [|c s]; simpl in Hin.
    + destruct cur; [contradiction|]. destruct Hin as [<-|[]].
      rewrite forallb_rev. exact Hcur.
    + simpl in Hlen, Hs. apply andb_true_iff in Hs. destruct Hs as [Hc Hs].
      destruct (is_linebreak c).
      * destruct Hin as [<-|Hin]; [rewrite forallb_rev; exact Hcur|].
        destruct s as [|d s']; [contradiction|].
        destruct ((c =? 13) && (d =? 10))%N.
        { simpl in Hs. apply andb_true_iff in Hs. destruct Hs as [_ Hs].
          apply (IH s' [] line); [simpl in Hlen; lia | reflexivity | exact Hs | exact Hin]. }
        { apply (IH (d :: s') [] line); [lia | reflexivity | exact Hs | exact Hin]. }
      * apply (IH s (c :: cur) line); [lia | | exact Hs | exact Hin].
        simpl. rewrite Hc. exact Hcur.
Qed.

(** The lines of a text that can be encoded can be encoded. *)
Lemma logged_lines_encodable E msg indent :
  encodable msg = true ->
  forallb encodable (logged_lines E msg indent) = true.
Proof.
  intros Hm. unfold logged_lines. apply forallb_forall. intros t Ht.
  apply in_map_iff in Ht. destruct Ht as [line [<- Hin]].
  rewrite encodable_padded. apply filter_In in Hin. destruct Hin as [Hin _].
  apply (splitlines_from_forallb (fun c => negb (is_surrogate c))
           (List.length msg) msg [] line); [lia | reflexivity | exact Hm | exact Hin].
Qed.

(** ** Running the monad *)

Lemma bind_assoc {A B C} (m : M A) (f : A -> M B) (g : B -> M C) w :
  bind (bind m f) g w = bind m (fun x => bind (f x) g) w.
Proof. unfold bind. destruct (m w) as [[a|e] w']; reflexivity. Qed.

Lemma bind_ret {A B} (a : A) (k : A -> M B) w : bind (ret a) k w = k a w.
Proof. reflexivity. Qed.

Lemma bind_raise {A B} e (k : A -> M B) w : bind (raise e) k w = (Raise e, w).
Proof. reflexivity. Qed.

Lemma logged_nil w : logged [] w = w.
Proof. destruct w. unfold logged, set_log. simpl. rewrite app_nil_r. reflexivity. Qed.

Lemma logged_logged a b w : logged b (logged a w) = logged (a ++ b) w.
Proof. unfold logged, set_log. simpl. rewrite app_assoc. reflexivity. Qed.

(** The loop of the logging call stops at the first line that cannot be
    written. *)
Lemma for_each_log E indent lines w :
  for_each lines (fun line =>
    if truthy (strip line)
    then log_write (repeat_str (lit " ") indent ++ line ++ os_linesep E)
    else ret tt) w
  = match first_unencodable
            (map (fun line => repeat 32%N (Z.to_nat indent) ++ line ++ os_linesep E)
                 (filter nonblank lines)) with
    | None =>
        (Ok tt,
         logged (map LWrite
                   (map (fun line =>
                           repeat 32%N (Z.to_nat indent) ++ line ++ os_linesep E)
                        (filter nonblank lines))) w)
    | Some (before, bad) =>
        (Raise (UnicodeEncodeError bad), logged (map LWrite before) w)
    end.
Proof.
  rewrite <- (repeat_space indent).
  revert w. induction lines as [|line lines IH]; intros w.
  - simpl. rewrite logged_nil. reflexivity.
  - simpl. rewrite truthy_strip. destruct (nonblank line).
    + unfold bind at 1, log_write at 1. cbn [map first_unencodable].
      destruct (encodable (repeat_str (lit " ") indent ++ line ++ os_linesep E)).
      * rewrite IH.
        destruct (first_unencodable _) as [[before bad]|];
          rewrite logged_logged; reflexivity.
      * rewrite logged_nil. reflexivity.
    + rewrite bind_ret. apply IH.
Qed.

(** What the logging call does, whatever the message. *)
Lemma msg_log_outcome E msg indent w :
  _msg_log E msg indent w =
  match first_unencodable (logged_lines E msg indent) with
  | None => (Ok tt, logged (msg_ops E msg indent) w)
  | Some (before, bad) =>
      (Raise (UnicodeEncodeError bad), logged (map LWrite before) w)
  end.
Proof.
  unfold _msg_log, bind. rewrite for_each_log. fold (logged_lines E msg indent).
  destruct (first_unencodable (logged_lines E msg indent)) as [[before bad]|];
    [reflexivity|].
  unfold log_flush. rewrite logged_logged. reflexivity.
Qed.

(** On a message that can be encoded the call writes every line. *)
Lemma msg_log_exec E msg indent w :
  encodable msg = true ->
  _msg_log E msg indent w = (Ok tt, logged (msg_ops E msg indent) w).
Proof.
  intros Hm. rewrite msg_log_outcome.
  rewrite (first_unencodable_none _ (logged_lines_encodable E msg indent Hm)).
  reflexivity.
Qed.

Lemma bind_msg_log {B} E msg indent (k : unit -> M B) w :
  encodable msg = true ->
  bind (_msg_log E msg indent) k w = k tt (logged (msg_ops E msg indent) w).
Proof. intros Hm. unfold bind. rewrite (msg_log_exec E msg indent w Hm). reflexivity. Qed.

(** The messages of the hook other than the version warning can be
    encoded: literals, return codes, decoded output. *)
Ltac solve_encodable :=
  first [ reflexivity
        | apply text_encodable
        | rewrite !encodable_app, ?encodable_of_int; reflexivity ].

Lemma msg_run_exec E r indent w :
  _msg_run E r indent w = (Ok r, logged (run_ops E r indent) w).
Proof.
  unfold _msg_run.
  rewrite !bind_msg_log by solve_encodable. rewrite !logged_logged.
  unfold run_ops, ret. rewrite <- ?app_assoc. reflexivity.
Qed.

Lemma bind_msg_run {B} E r indent (k : CompletedProcess -> M B) w :
  bind (_msg_run E r indent) k w = k r (logged (run_ops E r indent) w).
Proof. unfold bind. rewrite msg_run_exec. reflexivity. Qed.

Lemma bind_run_subprocess {B} E inv (k : CompletedProcess -> M B) w :
  bind (run_subprocess E inv) k w =
  match subprocess_run E (procs w) inv with
  | Completed r => k r (spawned (inv, Completed r) w)
  | SpawnFailed e => (Raise (OSError e), spawned (inv, SpawnFailed e) w)
  | Undecodable e => (Raise (UnicodeDecodeError e), spawned (inv, Undecodable e) w)
  end.
Proof.
  unfold bind, run_subprocess.
  destruct (subprocess_run E (procs w) inv); reflexivity.
Qed.

Lemma bind_path_is_dir {B} E p (k : bool -> M B) w :
  bind (path_is_dir E p) k w = k (is_dir E (procs w) p) w.
Proof. reflexivity. Qed.

Lemma procs_logged ops w : procs (logged ops w) = procs w.
Proof. reflexivity. Qed.

Lemma procs_spawned ev w : procs (spawned ev w) = procs w ++ [ev].
Proof. reflexivity. Qed.

Lemma log_file_logged ops w : log_file (logged ops w) = log_file w ++ ops.
Proof. reflexivity. Qed.

(** One step of symbolic execution of a monadic computation. *)
Ltac exec_step :=
  match goal with
  | |- context [bind (bind _ _) _ _] => rewrite bind_assoc
  | |- context [bind (_msg_log _ _ _) _ _] =>
      rewrite bind_msg_log by solve_encodable
  | |- context [bind (_msg_run _ _ _) _ _] => rewrite bind_msg_run
  | |- context [bind (ret _) _ _] => rewrite bind_ret
  | |- context [bind (raise _) _ _] => rewrite bind_raise
  | |- context [bind (path_is_dir _ _) _ _] => rewrite bind_path_is_dir
  | |- context [bind (run_subprocess _ _) _ _] => rewrite bind_run_subprocess
  | |- context [_msg_log _ _ _ _] => rewrite msg_log_exec by solve_encodable
  | |- context [_msg_run _ _ _ _] => rewrite msg_run_exec
  | |- context [match subprocess_run ?E ?h ?i with _ => _ end] =>
      let o := fresh "o" in
      destruct (subprocess_run E h i) as [o|o|o] eqn:?
  | |- context [bind (if ?b then _ else _) _ _] => destruct b eqn:?
  | |- context [(if ?b then _ else _) _] => destruct b eqn:?
  end.

Ltac exec := repeat (exec_step; cbv beta).

Lemma msg_ops_single E msg :
  single_line msg = true -> nonblank msg = true ->
  msg_ops E msg 0 = [LWrite (msg ++ os_linesep E); LFlush].
Proof.
  intros Hs Hb. unfold msg_ops, logged_lines.
  rewrite splitlines_single; [|exact Hs|intros ->; discriminate].
  simpl. rewrite Hb. reflexivity.
Qed.


(** ** The working directory *)

Lemma keeps_cwd_ret {A} (a : A) : keeps_cwd (ret a).
Proof. intros w. reflexivity. Qed.

Lemma keeps_cwd_raise {A} e : keeps_cwd (@raise A e).
Proof. intros w. reflexivity. Qed.

Lemma keeps_cwd_bind {A B} (m : M A) (k : A -> M B) :
  keeps_cwd m -> (forall a, keeps_cwd (k a)) -> keeps_cwd (bind m k).
Proof.
  intros Hm Hk w. unfold bind. specialize (Hm w).
  destruct (m w) as [[a|e] w']; simpl in *.
  - rewrite Hk. exact Hm.
  - exact Hm.
Qed.

Lemma keeps_cwd_if {A} (b : bool) (m1 m2 : M A) :
  keeps_cwd m1 -> keeps_cwd m2 -> keeps_cwd (if b then m1 else m2).
Proof. destruct b; auto. Qed.

Lemma keeps_cwd_msg_log E msg indent : keeps_cwd (_msg_log E msg indent).
Proof.
  intros w. rewrite msg_log_outcome.
  destruct (first_unencodable _) as [[before bad]|]; reflexivity.
Qed.

Lemma keeps_cwd_run_subprocess E inv : keeps_cwd (run_subprocess E inv).
Proof.
  intros w. unfold run_subprocess.
  destruct (subprocess_run E (procs w) inv); reflexivity.
Qed.

Lemma keeps_cwd_path_is_dir E p : keeps_cwd (path_is_dir E p).
Proof. intros w. reflexivity. Qed.

Lemma keeps_cwd_try_except {A} (body : M A) handler :
  keeps_cwd body -> (forall msg doc pos, keeps_cwd (handler msg doc pos)) ->
  keeps_cwd (try_except_JSONDecodeError body handler).
Proof.
  intros Hb Hh w. unfold try_except_JSONDecodeError. specialize (Hb w).
  destruct (body w) as [[a|e] w']; simpl in *; [exact Hb|].
  destruct e; simpl; try exact Hb. rewrite Hh. exact Hb.
Qed.

Lemma keeps_cwd_py_in key x : keeps_cwd (py_in key x).
Proof. destruct x; intros w; reflexivity. Qed.

Lemma keeps_cwd_py_getitem x key : keeps_cwd (py_getitem x key).
Proof.
  destruct x; intros w; try reflexivity. simpl.
  destruct (find _ _); reflexivity.
Qed.

Lemma keeps_cwd_json_load E text : keeps_cwd (json_load E text).
Proof. unfold json_load. destruct (json_loads E text); intros w; reflexivity. Qed.

Create HintDb cwd_frame.
#[local] Hint Resolve keeps_cwd_ret keeps_cwd_raise keeps_cwd_msg_log
  keeps_cwd_run_subprocess keeps_cwd_path_is_dir keeps_cwd_py_in
  keeps_cwd_py_getitem keeps_cwd_json_load : cwd_frame.

Ltac frame :=
  repeat first
    [ solve [auto with cwd_frame]
    | apply keeps_cwd_bind; [|intros ?; cbv beta]
    | apply keeps_cwd_if
    | apply keeps_cwd_try_except; [|intros ? ? ?; cbv beta] ].

Lemma keeps_cwd_msg_run E r indent : keeps_cwd (_msg_run E r indent).
Proof. unfold _msg_run. frame. Qed.
#[local] Hint Resolve keeps_cwd_msg_run : cwd_frame.

Lemma keeps_cwd_check_package_json E : keeps_cwd (_check_package_json E).
Proof.
  unfold _check_package_json, with_open_package_json.
  destruct (open_package_json E); frame.
Qed.

Lemma keeps_cwd_check_node_installed E : keeps_cwd (_check_node_installed E).
Proof. unfold _check_node_installed. frame. Qed.

Lemma keeps_cwd_check_pkgmgr_installed E : keeps_cwd (_check_pkgmgr_installed E).
Proof. unfold _check_pkgmgr_installed. frame. Qed.

Lemma keeps_cwd_run_step E label inv :
  keeps_cwd (_msg_log E label 0 ;; ran <- run_subprocess E inv ;; _msg_run E ran 2).
Proof. frame. Qed.

Lemma keeps_cwd_check_build_output_ok E : keeps_cwd (_check_build_output_ok E).
Proof. unfold _check_build_output_ok. frame. Qed.

#[local] Hint Resolve keeps_cwd_check_package_json keeps_cwd_check_node_installed
  keeps_cwd_check_pkgmgr_installed keeps_cwd_check_build_output_ok : cwd_frame.


Lemma keeps_cwd_with_open_setup_log {A} E (body : M A) :
  keeps_cwd body -> keeps_cwd (with_open_setup_log E body).
Proof.
  intros Hb. unfold with_open_setup_log.
  destruct (open_setup_log E); [apply keeps_cwd_raise|].
  intros w. specialize (Hb (set_log [] w)).
  destruct (body (set_log [] w)) as [r w']. exact Hb.
Qed.

(** ** Entering and leaving the package directory *)

Lemma skipn_exact {A} (l t : list A) : skipn (List.length l) (l ++ t) = t.
Proof. induction l; simpl; auto. Qed.

Lemma skipn_self {A} (l : list A) : skipn (List.length l) l = [].
Proof. induction l; simpl; auto. Qed.

(** [initialize] runs [_run] in the package directory with a fresh log,
    closes the log, and goes back to the start directory if that is still
    there. *)
Lemma initialize_runs_in_general E version build_data w :
  open_setup_log E = None ->
  let w0 := set_log [] (set_cwd (path_str E (PACKAGE_DIR E)) w) in
  initialize E version build_data w =
  if removed_since E (procs w) (started (_run E) w0) (cwd w)
  then (Raise (OSError no_such_directory), logged [LClose] (snd (_run E w0)))
  else (fst (_run E w0), set_cwd (cwd w) (logged [LClose] (snd (_run E w0)))).
Proof.
  intros Ho. unfold initialize, os_getcwd, try_finally, bind at 1.
  unfold bind at 1, os_chdir at 1, with_open_setup_log. rewrite Ho.
  rewrite skipn_self. cbn [removed_since]. cbv zeta. unfold started.
  cbn [procs set_log set_cwd].
  destruct (_run E _) as [r w1]. unfold os_chdir. cbn [procs logged set_log snd fst cwd].
  destruct (removed_since E (procs w) _ (cwd w)); reflexivity.
Qed.

(** When the log cannot be opened nothing runs, and the start directory
    is entered again. *)
Lemma initialize_unopenable_log E version build_data w e :
  open_setup_log E = Some e ->
  initialize E version build_data w = (Raise (OSError e), w).
Proof.
  intros Ho. unfold initialize, os_getcwd, try_finally, bind at 1.
  unfold bind at 1, os_chdir at 1, with_open_setup_log. rewrite Ho.
  rewrite skipn_self. cbn [removed_since]. unfold raise, os_chdir.
  cbn [procs set_cwd]. rewrite skipn_self. cbn [removed_since].
  destruct w; reflexivity.
Qed.

(** ** The manifest check *)

Lemma check_package_json_unopenable E e w :
  open_package_json E = inl e ->
  _check_package_json E w = (Raise (OSError e), logged (checking_manifest E) w).
Proof.
  intros H. unfold _check_package_json, with_open_package_json.
  rewrite H. exec. reflexivity.
Qed.

Lemma check_package_json_syntax_error E body msg doc pos w :
  open_package_json E = inr body ->
  json_loads E body = JsonSyntaxError msg doc pos ->
  _check_package_json E w =
  (Raise (JSONDecodeError (lit "package.json: " ++ msg)
                          (path_str E (package_json_path E)) pos),
   logged (checking_manifest E ++
           msg_ops E (lit "Unable to read package.json file - syntax error") 0) w).
Proof.
  intros Ho Hj. unfold _check_package_json, with_open_package_json.
  rewrite Ho. exec. unfold try_except_JSONDecodeError, json_load.
  rewrite Hj. rewrite bind_raise. exec. rewrite logged_logged. reflexivity.
Qed.

(** An undecodable manifest is not a syntax error: the handler does not
    see it. *)
Lemma check_package_json_undecodable E body d w :
  open_package_json E = inr body ->
  json_loads E body = JsonUndecodable d ->
  _check_package_json E w =
  (Raise (UnicodeDecodeError d), logged (checking_manifest E) w).
Proof.
  intros Ho Hj. unfold _check_package_json, with_open_package_json.
  rewrite Ho. exec. unfold try_except_JSONDecodeError, json_load.
  rewrite Hj. rewrite bind_raise. reflexivity.
Qed.

Lemma find_existsb {A} (f : A -> bool) l :
  existsb f l = match find f l with Some _ => true | None => false end.
Proof.
  induction l as [|x l IH]; simpl; [reflexivity|].
  destruct (f x); [reflexivity | exact IH].
Qed.

(** The check of a key-value manifest: silent on the expected version,
    one warning otherwise; the warning that quotes the version found is
    the one call whose message comes from the manifest. *)
Lemma check_package_json_dict E body items w :
  open_package_json E = inr body ->
  json_loads E body = JsonValue (PyDict items) ->
  _check_package_json E w =
  match find (fun kv => eqb (fst kv) (lit "version")) items with
  | None => (Ok tt, logged (checking_manifest E ++ msg_ops E missing_warning 0) w)
  | Some kv =>
      if py_eq_str (snd kv) STREAMLIT_VERSION
      then (Ok tt, logged (checking_manifest E) w)
      else _msg_log E (mismatch_warning (py_format E (snd kv))) 0
             (logged (checking_manifest E) w)
  end.
Proof.
  intros Ho Hj. unfold _check_package_json, with_open_package_json.
  rewrite Ho. exec. unfold try_except_JSONDecodeError, json_load.
  rewrite Hj. rewrite bind_ret; cbv beta. unfold py_in. rewrite bind_ret; cbv beta.
  rewrite find_existsb. unfold py_getitem.
  destruct (find _ items) as [kv|]; cbn [negb].
  - rewrite bind_ret; cbv beta.
    destruct (py_eq_str (snd kv) STREAMLIT_VERSION); cbn [negb].
    + reflexivity.
    + rewrite bind_ret; cbv beta.
      change (checking_manifest E)
        with (msg_ops E (lit "Checking package.json version...") 0).
      fold (mismatch_warning (py_format E (snd kv))).
      rewrite msg_log_outcome.
      destruct (first_unencodable _) as [[before bad]|]; reflexivity.
  - exec. rewrite logged_logged. reflexivity.
Qed.

(** Every outcome of the manifest check: it only adds to the log, and it
    returns or raises one of five kinds of exception. *)
Lemma check_package_json_outcome E w :
  exists ops,
    snd (_check_package_json E w) = logged ops w /\
    (fst (_check_package_json E w) = Ok tt
     \/ (exists e, fst (_check_package_json E w) = Raise (OSError e))
     \/ (exists msg pos,
           fst (_check_package_json E w) =
           Raise (JSONDecodeError (lit "package.json: " ++ msg)
                                  (path_str E (package_json_path E)) pos))
     \/ fst (_check_package_json E w) = Raise TypeError
     \/ (exists d, fst (_check_package_json E w) = Raise (UnicodeDecodeError d))
     \/ (exists t, fst (_check_package_json E w) = Raise (UnicodeEncodeError t))).
Proof.
  destruct (open_package_json E) as [e|body] eqn:Ho.
  { rewrite (check_package_json_unopenable E e w Ho).
    eexists; split; [reflexivity|]. right; left. eexists; reflexivity. }
  destruct (json_loads E body) as [v|msg doc pos|d] eqn:Hj.
  2:{ rewrite (check_package_json_syntax_error E body msg doc pos w Ho Hj).
      eexists; split; [reflexivity|]. right; right; left.
      do 2 eexists; reflexivity. }
  2:{ rewrite (check_package_json_undecodable E body d w Ho Hj).
      eexists; split; [reflexivity|]. do 4 right; left.
      eexists; reflexivity. }
  destruct v.
  7:{ rewrite (check_package_json_dict E body _ w Ho Hj).
      destruct (find _ _) as [kv|].
      2:{ eexists; split; [reflexivity|]; left; reflexivity. }
      destruct (py_eq_str (snd kv) STREAMLIT_VERSION).
      { eexists; split; [reflexivity|]; left; reflexivity. }
      rewrite msg_log_outcome.
      destruct (first_unencodable _) as [[before bad]|];
        cbn [fst snd]; rewrite logged_logged;
        (eexists; split; [reflexivity|]).
      - do 5 right. eexists; reflexivity.
      - left; reflexivity. }
  all: unfold _check_package_json, with_open_package_json;
    rewrite Ho; exec; unfold try_except_JSONDecodeError, json_load;
    rewrite Hj; rewrite bind_ret; cbv beta; unfold py_in, py_getitem;
    exec; cbn [fst snd]; rewrite ?logged_logged;
    (eexists; split; [reflexivity|]; auto).
Qed.



Example kept_start_directory_is_restored :
  removed_since Sample.node_not_found [] 
    (started (initialize Sample.node_not_found (lit "1.0.0") []) Sample.world)
    (lit "/home/dev") = false
  /\ cwd (snd (initialize Sample.node_not_found (lit "1.0.0") [] Sample.world))
     = lit "/home/dev".
Proof. split; reflexivity. Qed.

(** ** The logging call *)

Lemma first_unencodable_some lines before bad :
  first_unencodable lines = Some (before, bad) ->
  exists rest,
    lines = before ++ bad :: rest
    /\ forallb encodable before = true /\ encodable bad = false.
Proof.
  revert before. induction lines as [|l ls IH]; intros before H; [discriminate|].
  simpl in H. destruct (encodable l) eqn:Hl.
  - destruct (first_unencodable ls) as [[b x]|] eqn:Hf; [|discriminate].
    injection H as <- <-. destruct (IH b eq_refl) as [rest [-> [Hb Hx]]].
    exists rest. simpl. rewrite Hl, Hb. auto.
  - injection H as <- <-. exists ls. auto.
Qed.

(** C8 (as the code has it): the logging call writes the non-blank lines
    of the message, in order, each after the indent and before the
    platform line separator, and then flushes once, as long as every line
    can be encoded; at the first line that cannot, the write raises
    [UnicodeEncodeError]: the lines before it are written, the later ones
    are not, and the log is not flushed.  Nothing but the log changes. *)
Theorem msg_log_writes_until_unencodable E msg indent w :
  _msg_log E msg indent w =
    match first_unencodable (logged_lines E msg indent) with
    | None =>
        (Ok tt,
         mkWorld (cwd w)
                 (log_file w ++ map LWrite (logged_lines E msg indent) ++ [LFlush])
                 (procs w))
    | Some (before, bad) =>
        (Raise (UnicodeEncodeError bad),
         mkWorld (cwd w) (log_file w ++ map LWrite before) (procs w))
    end
  /\ match first_unencodable (logged_lines E msg indent) with
     | None => forallb encodable (logged_lines E msg indent) = true
     | Some (before, bad) =>
         exists rest,
           logged_lines E msg indent = before ++ bad :: rest
           /\ forallb encodable before = true /\ encodable bad = false
     end
  /\ (if encodable msg
      then first_unencodable (logged_lines E msg indent) = None
      else True).
Proof.
  split; [|split].
  - rewrite msg_log_outcome.
    destruct (first_unencodable _) as [[before bad]|]; reflexivity.
  - destruct (first_unencodable _) as [[before bad]|] eqn:Hf.
    + apply first_unencodable_some. exact Hf.
    + clear -Hf. induction (logged_lines E msg indent) as [|l ls IH]; [reflexivity|].
      simpl in *. destruct (encodable l); [|discriminate].
      destruct (first_unencodable ls) as [[b x]|]; [discriminate|].
      apply IH. reflexivity.
  - destruct (encodable msg) eqn:Hm; [|exact I].
    apply first_unencodable_none, logged_lines_encodable. exact Hm.
Qed.

(** C8 as stated fails: of the three non-blank lines of this message the
    second is a lone surrogate; the call writes the first, raises at the
    second, and neither writes the third nor flushes. *)
Lemma msg_log_stops_at_a_surrogate :
  logged_lines Sample.outdated_manifest
    (lit "built" ++ [10%N; 55296%N; 10%N] ++ lit "done") 0
    = [lit "built" ++ Sample.newline; [55296%N; 10%N]; lit "done" ++ Sample.newline]
  /\ _msg_log Sample.outdated_manifest
       (lit "built" ++ [10%N; 55296%N; 10%N] ++ lit "done") 0 Sample.world
     = (Raise (UnicodeEncodeError [55296%N; 10%N]),
        mkWorld (lit "/home/dev") [LWrite (lit "built" ++ Sample.newline)] []).
Proof. split; reflexivity. Qed.

Example msg_log_of_plain_text :
  _msg_log Sample.outdated_manifest
    (lit "built" ++ [10%N; 32%N; 10%N] ++ lit "done") 2 Sample.world
  = (Ok tt,
     mkWorld (lit "/home/dev")
       [LWrite (lit "  built" ++ Sample.newline);
        LWrite (lit "  done" ++ Sample.newline); LFlush] []).
Proof. reflexivity. Qed.

(** ** Whole runs *)

(** The two observational steps only add to the log. *)
Lemma bind_show_msg_if_build_dir_exists {B} E (k : unit -> M B) w :
  bind (_show_msg_if_build_dir_exists E) k w =
  k tt (logged (msg_ops E (lit "Checking if frontend has already been built...") 0
                ++ if is_dir E (procs w) (build_dir E)
                   then msg_ops E (lit "Found build directory") 2 else []) w).
Proof.
  unfold _show_msg_if_build_dir_exists. exec; cbn [procs logged set_log] in *.
  - rewrite logged_logged. rewrite Heqb. reflexivity.
  - rewrite Heqb, app_nil_r. reflexivity.
Qed.

Lemma bind_show_msg_if_modules_dir_exists {B} E (k : unit -> M B) w :
  bind (_show_msg_if_modules_dir_exists E) k w =
  k tt (logged (msg_ops E (lit "Checking if node_modules exists...") 0
                ++ if is_dir E (procs w) (modules_dir E)
                   then msg_ops E (lit "Found node_modules directory") 2 else []) w).
Proof.
  unfold _show_msg_if_modules_dir_exists. exec; cbn [procs logged set_log] in *.
  - rewrite logged_logged. rewrite Heqb. reflexivity.
  - rewrite Heqb, app_nil_r. reflexivity.
Qed.

(** Case analysis of a goal about [_run E w]: one goal for each way the
    run can go, with the result and the final state computed. *)
Ltac run_cases E w :=
  let ops := fresh "ops" in
  let Hw := fresh "Hw" in
  let Hr := fresh "Hmanifest" in
  let r := fresh "r" in
  let w1 := fresh "w1" in
  let Q := fresh "Q" in
  unfold started;
  pattern (_run E w);
  match goal with |- ?P _ => set (Q := P) end;
  unfold _run;
  destruct (check_package_json_outcome E w) as [ops [Hw Hr]];
  unfold bind at 1;
  destruct (_check_package_json E w) as [r w1];
  cbn [fst snd] in Hw, Hr; subst w1;
  destruct r as [[]|?];
  [ clear Hr;
    unfold _check_need_protobuf;
    rewrite bind_msg_log by solve_encodable;
    rewrite bind_show_msg_if_build_dir_exists,
      bind_show_msg_if_modules_dir_exists;
    unfold _check_node_installed, _check_pkgmgr_installed, _run_install,
      _run_npm_audit, _run_build, _check_build_output_ok;
    change (eqb PACKAGE_MGR (lit "yarn")) with false;
    exec
  | ];
  subst Q; cbv beta;
  cbn [fst snd procs logged spawned set_log set_procs ret raise] in *;
  repeat rewrite <- (app_assoc (A := proc_event)) in *;
  rewrite ?skipn_exact, ?skipn_self;
  cbn [app] in *.

(** A run that nothing removes the start directory of. *)
Lemma initialize_runs E version build_data w :
  open_setup_log E = None ->
  let w0 := set_log [] (set_cwd (path_str E (PACKAGE_DIR E)) w) in
  started (_run E) w0 = [] ->
  initialize E version build_data w =
  (fst (_run E w0), set_cwd (cwd w) (logged [LClose] (snd (_run E w0)))).
Proof.
  intros Ho w0 Hs.
  rewrite (initialize_runs_in_general E version build_data w Ho). cbv zeta.
  fold w0. rewrite Hs. reflexivity.
Qed.

(** A failure of the manifest check ends the run. *)
Lemma run_manifest_failure E w e w' :
  _check_package_json E w = (Raise e, w') -> _run E w = (Raise e, w').
Proof. intros H. unfold _run, bind at 1. rewrite H. reflexivity. Qed.

(** ** The claims about the manifest *)



(** C10: when the manifest cannot be opened, the error of the file system
    leaves [initialize] unchanged: it is neither the parse error nor a
    build error, the handler of the parse error has logged nothing, and no
    subprocess was started. *)
Theorem unopenable_manifest_propagates_os_error E version build_data w e :
  open_setup_log E = None ->
  open_package_json E = inl e ->
  initialize E version build_data w =
    (Raise (OSError e),
     mkWorld (cwd w) (checking_manifest E ++ [LClose]) (procs w))
  /\ is_JSONDecodeError (OSError e) = false
  /\ is_BuildErrorException (OSError e) = false.
Proof.
  intros Hlog Ho.
  assert (Hrun : forall w0, _run E w0 = (Raise (OSError e), logged (checking_manifest E) w0)).
  { intros w0. apply run_manifest_failure, check_package_json_unopenable, Ho. }
  rewrite (initialize_runs E version build_data w Hlog).
  - cbv zeta. rewrite Hrun. split; [reflexivity | split; reflexivity].
  - unfold started. rewrite Hrun. cbn [snd procs logged set_log].
    apply skipn_self.
Qed.

Lemma unopenable_manifest_witness :
  initialize Sample.no_manifest
             (lit "1.0.0") [] Sample.world =
    (Raise (OSError Sample.ENOENT),
     mkWorld (lit "/home/dev")
             [LWrite (lit "Checking package.json version..." ++ Sample.newline);
              LFlush; LClose] [])
  /\ is_JSONDecodeError (OSError Sample.ENOENT) = false
  /\ is_BuildErrorException (OSError Sample.ENOENT) = false.
Proof.
  apply (unopenable_manifest_propagates_os_error
           Sample.no_manifest
           (lit "1.0.0") [] Sample.world Sample.ENOENT); reflexivity.
Defined.

Lemma count_spec needle hay (n : nat) :
  n = (if contains needle hay then 1 else 0)%nat ->
  (n = 1%nat <-> substring needle hay) /\ (n = 0%nat <-> ~ substring needle hay).
Proof.
  intros ->. unfold substring. rewrite <- contains_spec.
  destruct (contains needle hay); split; split; intros H;
    try reflexivity; try discriminate; try congruence.
Qed.

(** ** The claims about the subprocesses *)

(** C3: in every run the audit subcommand is called exactly once when the
    captured output of the install subprocess contains [npm audit fix],
    and is not called when it does not; without a completed install it
    is never called. *)
Theorem audit_iff_install_suggests_it E w :
  let evs := started (_run E) w in
  match outcome_of ["npm"; "install"] evs with
  | Some (Completed r) =>
      (invoked ["npm"; "audit"] evs = 1%nat
       <-> substring (lit "npm audit fix") (stdout r))
      /\ (invoked ["npm"; "audit"] evs = 0%nat
          <-> ~ substring (lit "npm audit fix") (stdout r))
  | _ => invoked ["npm"; "audit"] evs = 0%nat
  end.
Proof.
  cbv zeta. run_cases E w; cbn -[substring contains] in *; try reflexivity;
    apply count_spec;
    repeat match goal with H : contains _ _ = _ |- _ => rewrite H; clear H end;
    reflexivity.
Qed.

Lemma run_reaches_node_check E w :
  fst (_check_package_json E w) = Ok tt ->
  exists out, outcome_of ["node"; "--version"] (started (_run E) w) = Some out.
Proof.
  run_cases E w; intros H; try discriminate H; cbn; eexists; reflexivity.
Qed.

(** Turn the tests of return codes met along a run into (in)equalities. *)
Ltac exit_codes :=
  repeat match goal with
         | H : negb (_ =? 0)%Z = true |- _ =>
             apply negb_true_iff, Z.eqb_neq in H
         | H : negb (_ =? 0)%Z = false |- _ =>
             apply negb_false_iff, Z.eqb_eq in H
         end.

(** C5 (as the code has it): when the node version check ran and failed, the
    package manager's version check is never called; a non-zero exit code
    raises the build error "Could not find node", while a failure to start
    the subprocess propagates as the error of the operating system, and
    output that cannot be decoded as the decoding error. *)
Theorem node_check_failure E w out :
  outcome_of ["node"; "--version"] (started (_run E) w) = Some out ->
  match out with
  | Completed r =>
      returncode r <> 0%Z ->
      fst (_run E w) = Raise (BuildErrorException node_missing)
      /\ invoked ["npm"; "--version"] (started (_run E) w) = 0%nat
  | SpawnFailed e =>
      fst (_run E w) = Raise (OSError e)
      /\ invoked ["npm"; "--version"] (started (_run E) w) = 0%nat
  | Undecodable d =>
      fst (_run E w) = Raise (UnicodeDecodeError d)
      /\ invoked ["npm"; "--version"] (started (_run E) w) = 0%nat
  end.
Proof.
  run_cases E w; cbn; intros H; try discriminate H;
    injection H as <-; try (split; reflexivity);
    intros Hrc; exit_codes; contradiction.
Qed.

Lemma node_check_failure_witness :
  fst (_run Sample.node_exits_127
            Sample.world)
  = Raise (BuildErrorException node_missing)
  /\ invoked ["npm"; "--version"]
       (started (_run Sample.node_exits_127)
            Sample.world) = 0%nat.
Proof.
  apply (node_check_failure
           Sample.node_exits_127
           Sample.world (Sample.exit 127 "node: command not found"));
    [reflexivity | discriminate].
Defined.

(** C5 as stated fails: when node cannot be started the run raises the error
    of the operating system, not a build error. *)
Lemma node_spawn_failure_is_not_build_error :
  outcome_of ["node"; "--version"]
    (started (_run Sample.node_not_found)
             Sample.world) = Some (SpawnFailed Sample.ENOENT)
  /\ fst (_run Sample.node_not_found
            Sample.world) = Raise (OSError Sample.ENOENT)
  /\ is_BuildErrorException (OSError Sample.ENOENT) = false.
Proof. repeat split. Qed.




Example undecodable_manifest_is_not_a_parse_error :
  _run Sample.undecodable_manifest Sample.world
  = (Raise (UnicodeDecodeError (mkDecodeError 0 (lit "invalid start byte"))),
     mkWorld (lit "/home/dev")
       [LWrite (lit "Checking package.json version..." ++ Sample.newline); LFlush]
       []).
Proof. reflexivity. Qed.

Example undecodable_node_output_ends_the_run :
  fst (_run Sample.node_prints_garbage Sample.world)
  = Raise (UnicodeDecodeError (mkDecodeError 0 (lit "invalid start byte")))
  /\ map (fun ev => args (fst ev))
         (started (_run Sample.node_prints_garbage) Sample.world)
     = [[lit "node"; lit "--version"]].
Proof. split; reflexivity. Qed.

(** C7: the output check raises "Failed to create output directory" exactly
    when the build directory does not exist, and otherwise logs the success
    message and returns; in a run, once the build subcommand has completed,
    the existence of that directory alone decides between the two. *)
Theorem build_output_check E w :
  _check_build_output_ok E w =
    (if is_dir E (procs w) (build_dir E)
     then (Ok tt,
           logged (msg_ops E (lit "Checking if frontend was built...") 0
                   ++ msg_ops E (lit "Found build directory") 2) w)
     else (Raise (BuildErrorException output_missing),
           logged (msg_ops E (lit "Checking if frontend was built...") 0) w))
  /\ forall r,
       outcome_of ["npm"; "run"; "build"] (started (_run E) w) = Some (Completed r) ->
       fst (_run E w) =
       if is_dir E (procs (snd (_run E w))) (build_dir E)
       then Ok tt else Raise (BuildErrorException output_missing).
Proof.
  split.
  - unfold _check_build_output_ok. exec; cbn [procs logged set_log] in *.
    + rewrite Heqb, logged_logged. reflexivity.
    + rewrite Heqb. reflexivity.
  - intros r. run_cases E w; cbn -[is_dir]; intros H; try discriminate H.
    all: match goal with Hd : is_dir _ _ _ = _ |- _ => rewrite Hd end; reflexivity.
Qed.

(** C9: the install and build steps return whatever the subprocess
    returned, whatever its exit code; after a completed install the run
    goes on to its next subprocess, and after a completed build only the
    output check decides between success and failure. *)
Theorem install_and_build_exit_codes_ignored E w :
  fst (_run_install E w) =
    match subprocess_run E (procs w) (pkgmgr_install E) with
    | Completed r => Ok r
    | SpawnFailed e => Raise (OSError e)
    | Undecodable d => Raise (UnicodeDecodeError d)
    end
  /\ fst (_run_build E w) =
    match subprocess_run E (procs w) (pkgmgr_build E) with
    | Completed r => Ok r
    | SpawnFailed e => Raise (OSError e)
    | Undecodable d => Raise (UnicodeDecodeError d)
    end
  /\ (forall r,
        outcome_of ["npm"; "install"] (started (_run E) w) = Some (Completed r) ->
        exists out,
          outcome_of (if contains (lit "npm audit fix") (stdout r)
                      then ["npm"; "audit"] else ["npm"; "run"; "build"])
                     (started (_run E) w) = Some out)
  /\ (forall r,
        outcome_of ["npm"; "run"; "build"] (started (_run E) w) = Some (Completed r) ->
        fst (_run E w) = Ok tt
        \/ fst (_run E w) = Raise (BuildErrorException output_missing)).
Proof.
  split; [|split; [|split]].
  - unfold _run_install.
    rewrite bind_msg_log by solve_encodable. rewrite bind_run_subprocess.
    cbn [procs logged set_log].
    destruct (subprocess_run E (procs w) (pkgmgr_install E));
      [rewrite msg_run_exec| |]; reflexivity.
  - unfold _run_build.
    rewrite bind_msg_log by solve_encodable. rewrite bind_run_subprocess.
    cbn [procs logged set_log].
    destruct (subprocess_run E (procs w) (pkgmgr_build E));
      [rewrite msg_run_exec| |]; reflexivity.
  - intros r. run_cases E w; cbn -[contains]; intros H; try discriminate H;
      injection H as <-;
      match goal with Hc : contains _ _ = _ |- _ => cbn -[contains] in Hc; rewrite Hc end;
      cbn; eexists; reflexivity.
  - intros r. run_cases E w; cbn; intros H; try discriminate H; auto.
Qed.

Example exit_codes_of_install_and_build_do_not_matter :
  outcome_of ["npm"; "install"] (started (_run Sample.failing_exit_codes) Sample.world)
    = Some (Sample.exit 1 "npm ERR! code ERESOLVE")
  /\ outcome_of ["npm"; "run"; "build"]
       (started (_run Sample.failing_exit_codes) Sample.world)
    = Some (Sample.exit 1 "npm ERR! Missing script: build")
  /\ fst (_run Sample.failing_exit_codes Sample.world) = Ok tt.
Proof. repeat split. Qed.

Example missing_output_fails_the_run :
  outcome_of ["npm"; "run"; "build"] (started (_run Sample.no_output) Sample.world)
    = Some (Sample.exit 0 "")
  /\ fst (_run Sample.no_output Sample.world)
     = Raise (BuildErrorException output_missing).
Proof. repeat split. Qed.

(** ** Visible characters *)

Lemma linebreak_is_space c : is_linebreak c = true -> is_space c = true.
Proof.
  destruct c as [|p]; [discriminate|].
  do 14 (try (destruct p as [p|p|]; cbn; try discriminate; try reflexivity)).
Qed.

Lemma nonblank_all_space s : nonblank s = negb (forallb is_space s).
Proof.
  unfold nonblank. induction s as [|c s IH]; simpl; [reflexivity|].
  rewrite negb_andb, IH. reflexivity.
Qed.

Lemma filter_none {A} (f : A -> bool) l :
  (forall x, In x l -> f x = false) -> filter f l = [].
Proof.
  induction l as [|x l IH]; intros H; simpl; [reflexivity|].
  rewrite (H x (or_introl eq_refl)). apply IH. intros y Hy. apply H. right. exact Hy.
Qed.

Lemma visible_app a b : visible (a ++ b) = visible a ++ visible b.
Proof. apply filter_app. Qed.

Lemma visible_all_space s : forallb is_space s = true -> visible s = [].
Proof.
  intros H. apply filter_none. intros c Hc.
  rewrite forallb_forall in H. rewrite (H c Hc). reflexivity.
Qed.

Lemma visible_rev s : visible (rev s) = rev (visible s).
Proof.
  unfold visible. induction s as [|c s IH]; simpl; [reflexivity|].
  rewrite filter_app, IH. simpl. destruct (negb (is_space c)); simpl;
    [reflexivity | rewrite app_nil_r; reflexivity].
Qed.

(** Splitting into lines loses line boundaries only. *)
Lemma visible_splitlines_from n : forall s cur,
  (List.length s <= n)%nat ->
  visible (List.concat (splitlines_from cur s)) = visible (rev cur ++ s).
Proof.
  induction n as [|n IH]; intros s cur Hlen.
  - destruct s; [|simpl in Hlen; lia]. simpl.
    destruct cur; [reflexivity|]. cbn [List.concat]. rewrite !app_nil_r. reflexivity.
  - destruct s as [|c s].
    + simpl. destruct cur; [reflexivity|]. cbn [List.concat].
      rewrite !app_nil_r. reflexivity.
    + simpl in Hlen. cbn [splitlines_from].
      destruct (is_linebreak c) eqn:Hc.
      * assert (Hvc : visible [c] = []).
        { apply visible_all_space. simpl. rewrite (linebreak_is_space c Hc).
          reflexivity. }
        cbn [List.concat]. rewrite !visible_app.
        change (c :: s) with ([c] ++ s). rewrite visible_app, Hvc. cbn [app].
        f_equal.
        destruct s as [|d s']; [reflexivity|].
        destruct ((c =? 13) && (d =? 10))%N eqn:Hcr.
        { rewrite (IH s' []) by (simpl in Hlen; lia).
          apply andb_true_iff in Hcr. destruct Hcr as [_ Hd].
          apply N.eqb_eq in Hd. subst d. reflexivity. }
        { rewrite (IH (d :: s') []) by lia. reflexivity. }
      * rewrite (IH s (c :: cur)) by lia. simpl. rewrite <- app_assoc. reflexivity.
Qed.

Lemma visible_nonblank_lines ls :
  visible (List.concat (filter nonblank ls)) = visible (List.concat ls).
Proof.
  induction ls as [|l ls IH]; [reflexivity|]. simpl.
  destruct (nonblank l) eqn:Hb; simpl; rewrite !visible_app, IH; [reflexivity|].
  rewrite nonblank_all_space in Hb. apply negb_false_iff in Hb.
  rewrite (visible_all_space l Hb). reflexivity.
Qed.

Lemma visible_repeat_space n : visible (repeat 32%N n) = [].
Proof. induction n as [|n IH]; [reflexivity | exact IH]. Qed.

Lemma written_app a b : written (a ++ b) = written a ++ written b.
Proof.
  induction a as [|op a IH]; [reflexivity|].
  destruct op; simpl; rewrite IH; reflexivity.
Qed.

Lemma written_writes ls : written (map LWrite ls) = ls.
Proof. induction ls as [|l ls IH]; simpl; [|rewrite IH]; reflexivity. Qed.

Lemma surrogate_not_space c : is_surrogate c = true -> is_space c = false.
Proof.
  intros Hs.
  assert (Hr : ((8192 <=? c) && (c <=? 8202))%N = false).
  { unfold is_surrogate in Hs. apply andb_true_iff in Hs. destruct Hs as [H1 _].
    apply N.leb_le in H1. apply andb_false_iff. right. apply N.leb_gt. lia. }
  unfold is_space. set (R := ((8192 <=? c) && (c <=? 8202))%N) in *.
  clearbody R.
  repeat match goal with
         | |- context [match ?p with _ => _ end] => destruct p; cbv beta iota
         end;
    try exact Hr; vm_compute in Hs; discriminate Hs.
Qed.

(** White space can always be encoded, so a text can be encoded when its
    visible characters can. *)
Lemma encodable_visible s : encodable (visible s) = encodable s.
Proof.
  induction s as [|c s IH]; [reflexivity|].
  change (visible (c :: s))
    with (if negb (is_space c) then c :: visible s else visible s).
  change (encodable (c :: s)) with (negb (is_surrogate c) && encodable s).
  destruct (is_space c) eqn:Hc; cbn [negb].
  - destruct (is_surrogate c) eqn:Hsur.
    + rewrite (surrogate_not_space c Hsur) in Hc. discriminate Hc.
    + exact IH.
  - change (encodable (c :: visible s))
      with (negb (is_surrogate c) && encodable (visible s)).
    rewrite IH. reflexivity.
Qed.

Lemma first_unencodable_all lines :
  first_unencodable lines = None -> forallb encodable lines = true.
Proof.
  induction lines as [|l ls IH]; [reflexivity|]. simpl.
  destruct (encodable l); [|discriminate].
  destruct (first_unencodable ls) as [[b x]|]; [discriminate|].
  intros _. apply IH. reflexivity.
Qed.

(** A character that cannot be encoded is visible, so it is on a line
    that the logging call writes: the call fails on every message that
    cannot be encoded. *)
Lemma logged_lines_unencodable E msg indent :
  encodable msg = false ->
  exists before bad,
    first_unencodable (logged_lines E msg indent) = Some (before, bad).
Proof.
  intros Hm.
  destruct (first_unencodable (logged_lines E msg indent)) as [[before bad]|] eqn:Hf;
    [eauto|].
  apply first_unencodable_all in Hf. exfalso.
  assert (Hc : encodable (List.concat (filter nonblank (splitlines msg))) = true).
  { unfold logged_lines in Hf. revert Hf.
    induction (filter nonblank (splitlines msg)) as [|l ls IH]; [reflexivity|].
    cbn [map forallb List.concat]. rewrite encodable_padded, encodable_app.
    intros H. apply andb_true_iff in H. destruct H as [Hl Hls].
    rewrite Hl, (IH Hls). reflexivity. }
  rewrite <- encodable_visible, visible_nonblank_lines in Hc.
  unfold splitlines in Hc.
  rewrite (visible_splitlines_from (List.length msg) msg []) in Hc by lia.
  cbn [rev app] in Hc. rewrite encodable_visible in Hc. congruence.
Qed.

Lemma msg_log_unencodable E msg indent w :
  encodable msg = false ->
  exists before bad,
    _msg_log E msg indent w =
    (Raise (UnicodeEncodeError bad), logged (map LWrite before) w).
Proof.
  intros Hm. destruct (logged_lines_unencodable E msg indent Hm) as [before [bad Hf]].
  exists before, bad. rewrite msg_log_outcome, Hf. reflexivity.
Qed.

(** ** The version check of the manifest *)

Lemma single_line_app a b :
  single_line (a ++ b) = single_line a && single_line b.
Proof. apply forallb_app. Qed.

Lemma nonblank_app_l a b : nonblank a = true -> nonblank (a ++ b) = true.
Proof. unfold nonblank. intros H. rewrite existsb_app, H. reflexivity. Qed.

Lemma mismatch_warning_ops E found :
  single_line found = true ->
  msg_ops E (mismatch_warning found) 0 =
  [LWrite (mismatch_warning found ++ os_linesep E); LFlush].
Proof.
  intros H. apply msg_ops_single.
  - unfold mismatch_warning. rewrite !single_line_app, H. reflexivity.
  - unfold mismatch_warning. apply nonblank_app_l. reflexivity.
Qed.

Lemma mismatch_warning_names_both found :
  substring found (mismatch_warning found)
  /\ substring STREAMLIT_VERSION (mismatch_warning found).
Proof.
  unfold mismatch_warning. split.
  - exists (lit "WARNING: package.json:version should be "
            ++ STREAMLIT_VERSION ++ lit " not "), [].
    rewrite app_nil_r, <- !app_assoc. reflexivity.
  - exists (lit "WARNING: package.json:version should be "),
           (lit " not " ++ found). reflexivity.
Qed.

Lemma encodable_mismatch_warning found :
  encodable (mismatch_warning found) = encodable found.
Proof. unfold mismatch_warning. rewrite !encodable_app. reflexivity. Qed.

(** C2 (as the code has it): for a manifest that parses to a key-value
    object, a version equal to the expected constant logs no warning and an
    absent version logs one warning line; in both cases the check returns
    and the run goes on to the node check.  A differing version is quoted
    in a warning: when its text can be encoded the check returns and the
    run goes on, and the warning is exactly one line, containing both
    versions, whenever the text has no line boundary; when its text cannot
    be encoded the write of the warning raises [UnicodeEncodeError], which
    ends the run before any subprocess. *)
Theorem manifest_version_check E w body items :
  open_package_json E = inr body ->
  json_loads E body = JsonValue (PyDict items) ->
  let reaches_node_check :=
    exists out, outcome_of ["node"; "--version"] (started (_run E) w) = Some out in
  match find (fun kv => eqb (fst kv) (lit "version")) items with
  | None =>
      _check_package_json E w =
        (Ok tt,
         logged (checking_manifest E
                 ++ [LWrite (missing_warning ++ os_linesep E); LFlush]) w)
      /\ reaches_node_check
  | Some kv =>
      let found := py_format E (snd kv) in
      if py_eq_str (snd kv) STREAMLIT_VERSION then
        _check_package_json E w = (Ok tt, logged (checking_manifest E) w)
        /\ reaches_node_check
      else if encodable found then
        _check_package_json E w =
          (Ok tt,
           logged (checking_manifest E ++ msg_ops E (mismatch_warning found) 0) w)
        /\ reaches_node_check
        /\ (single_line found = true ->
            msg_ops E (mismatch_warning found) 0 =
              [LWrite (mismatch_warning found ++ os_linesep E); LFlush]
            /\ substring found (mismatch_warning found)
            /\ substring STREAMLIT_VERSION (mismatch_warning found))
      else
        exists before bad,
          _check_package_json E w =
            (Raise (UnicodeEncodeError bad),
             logged (checking_manifest E ++ map LWrite before) w)
          /\ fst (_run E w) = Raise (UnicodeEncodeError bad)
          /\ started (_run E) w = []
  end.
Proof.
  intros Ho Hj. cbv zeta.
  pose proof (check_package_json_dict E body items w Ho Hj) as Hck.
  destruct (find _ items) as [kv|].
  - destruct (py_eq_str (snd kv) STREAMLIT_VERSION).
    + split; [exact Hck|]. apply run_reaches_node_check. rewrite Hck. reflexivity.
    + destruct (encodable (py_format E (snd kv))) eqn:Henc.
      * rewrite msg_log_exec in Hck by (rewrite encodable_mismatch_warning; exact Henc).
        rewrite logged_logged in Hck.
        split; [exact Hck|]. split.
        { apply run_reaches_node_check. rewrite Hck. reflexivity. }
        intros Hs. split; [apply mismatch_warning_ops; exact Hs|].
        apply mismatch_warning_names_both.
      * rewrite <- encodable_mismatch_warning in Henc.
        destruct (msg_log_unencodable E _ 0 (logged (checking_manifest E) w) Henc)
          as [before [bad Hlog]].
        rewrite Hlog, logged_logged in Hck. exists before, bad.
        split; [exact Hck|].
        unfold started. rewrite (run_manifest_failure E w _ _ Hck).
        cbn [fst snd procs logged set_log]. rewrite skipn_self. split; reflexivity.
  - assert (Hm : msg_ops E missing_warning 0
                 = [LWrite (missing_warning ++ os_linesep E); LFlush])
      by (apply msg_ops_single; reflexivity).
    rewrite Hm in Hck. split; [exact Hck|].
    apply run_reaches_node_check. rewrite Hck. reflexivity.
Qed.

Lemma manifest_version_check_witness :
  _check_package_json Sample.outdated_manifest Sample.world =
    (Ok tt,
     logged (checking_manifest Sample.outdated_manifest
             ++ [LWrite (lit "WARNING: package.json:version should be 1.42.0 not 1.0.0"
                         ++ Sample.newline); LFlush])
            Sample.world)
  /\ exists out,
       outcome_of ["node"; "--version"]
         (started (_run Sample.outdated_manifest) Sample.world) = Some out.
Proof.
  pose proof (manifest_version_check Sample.outdated_manifest Sample.world
                (Sample.body_with_version (lit "1.0.0"))
                [(lit "version", PyStr (lit "1.0.0"))] eq_refl eq_refl) as H.
  cbn in H. destruct H as [Hck [Hnode _]]. split; [exact Hck | exact Hnode].
Defined.

(** C2 as stated fails on valid manifests: a version holding a line break
    gives two warning lines, neither of which contains the found version;
    a version holding a lone surrogate, which the manifest can spell with
    an escape, makes the write of the warning raise [UnicodeEncodeError],
    and the run ends there; and a manifest that is valid but not a
    key-value object, such as [42], makes the check raise [TypeError]. *)
Lemma valid_manifests_outside_the_claim :
  json_loads Sample.multiline_version
    (Sample.body_with_version (lit "1.0.0" ++ Sample.backslash ++ lit "nbeta"))
    = JsonValue (PyDict [(lit "version",
                          PyStr (lit "1.0.0" ++ Sample.newline ++ lit "beta"))])
  /\ log_file (snd (_check_package_json Sample.multiline_version Sample.world))
     = [LWrite (lit "Checking package.json version..." ++ Sample.newline); LFlush;
        LWrite (lit "WARNING: package.json:version should be 1.42.0 not 1.0.0"
                ++ Sample.newline);
        LWrite (lit "beta" ++ Sample.newline); LFlush]
  /\ contains (lit "1.0.0" ++ Sample.newline ++ lit "beta")
       (lit "WARNING: package.json:version should be 1.42.0 not 1.0.0"
        ++ Sample.newline) = false
  /\ json_loads Sample.surrogate_version
       (Sample.body_with_version (Sample.backslash ++ lit "ud800"))
     = JsonValue (PyDict [(lit "version", PyStr [55296%N])])
  /\ _run Sample.surrogate_version Sample.world
     = (Raise (UnicodeEncodeError
                 (lit "WARNING: package.json:version should be 1.42.0 not "
                  ++ [55296%N] ++ Sample.newline)),
        mkWorld (lit "/home/dev")
          [LWrite (lit "Checking package.json version..." ++ Sample.newline);
           LFlush] [])
  /\ json_loads Sample.number_manifest (lit "42") = JsonValue (PyInt 42)
  /\ fst (_check_package_json Sample.number_manifest Sample.world) = Raise TypeError.
Proof. repeat split. Qed.

Example matching_version_logs_no_warning :
  _check_package_json (Sample.healthy (Sample.body_with_version (lit "1.42.0")))
                      Sample.world
  = (Ok tt,
     mkWorld (lit "/home/dev")
       [LWrite (lit "Checking package.json version..." ++ Sample.newline); LFlush]
       []).
Proof. reflexivity. Qed.

Example outdated_version_logs_one_warning :
  log_file (snd (_check_package_json Sample.outdated_manifest Sample.world))
  = [LWrite (lit "Checking package.json version..." ++ Sample.newline); LFlush;
     LWrite (lit "WARNING: package.json:version should be 1.42.0 not 1.0.0"
             ++ Sample.newline); LFlush].
Proof. reflexivity. Qed.

Example audit_runs_once_when_suggested :
  invoked ["npm"; "audit"] (started (_run Sample.audit_suggested) Sample.world) = 1%nat
  /\ invoked ["npm"; "audit"]
       (started (_run (Sample.healthy (Sample.body_with_version (lit "1.42.0"))))
                Sample.world) = 0%nat.
Proof. split; reflexivity. Qed.

Example failed_run_restores_cwd :
  initialize Sample.node_not_found (lit "1.0.0") [] Sample.world
  = (Raise (OSError Sample.ENOENT),
     mkWorld (lit "/home/dev")
       (log_file (snd (initialize Sample.node_not_found (lit "1.0.0") [] Sample.world)))
       [(node_version Sample.node_not_found, SpawnFailed Sample.ENOENT)]).
Proof. reflexivity. Qed.

(** * Further properties of the hook *)

(** ** Order and fate of the subprocesses *)

(** X1: in every run the subprocesses are started in the fixed order node
    version, package manager version, install, audit (optional), build,
    each once: the calls of a run are an initial part of that sequence. *)
Theorem subprocesses_follow_the_pipeline E w :
  exists audit rest,
    pipeline E audit = map fst (started (_run E) w) ++ rest.
Proof.
  run_cases E w; cbn [map fst app];
    first [ exists false; eexists; reflexivity
          | exists true; eexists; reflexivity ].
Qed.

(** X2: when the version check of the package manager ran and failed, the
    install subcommand is never started; a non-zero exit code raises the
    build error naming npm, a failure to start the subprocess propagates
    as the error of the operating system, output that cannot be decoded
    as the decoding error. *)
Theorem pkgmgr_check_failure E w out :
  outcome_of ["npm"; "--version"] (started (_run E) w) = Some out ->
  match out with
  | Completed r =>
      returncode r <> 0%Z ->
      fst (_run E w) = Raise (BuildErrorException pkgmgr_missing)
      /\ invoked ["npm"; "install"] (started (_run E) w) = 0%nat
  | SpawnFailed e =>
      fst (_run E w) = Raise (OSError e)
      /\ invoked ["npm"; "install"] (started (_run E) w) = 0%nat
  | Undecodable d =>
      fst (_run E w) = Raise (UnicodeDecodeError d)
      /\ invoked ["npm"; "install"] (started (_run E) w) = 0%nat
  end.
Proof.
  run_cases E w; cbn; intros H; try discriminate H;
    injection H as <-; try (split; reflexivity);
    intros Hrc; exit_codes; contradiction.
Qed.

Lemma pkgmgr_check_failure_witness :
  fst (_run Sample.npm_exits_1 Sample.world)
  = Raise (BuildErrorException pkgmgr_missing)
  /\ invoked ["npm"; "install"] (started (_run Sample.npm_exits_1) Sample.world)
     = 0%nat.
Proof.
  apply (pkgmgr_check_failure Sample.npm_exits_1 Sample.world
           (Sample.exit 1 "npm ERR!")); [reflexivity | discriminate].
Defined.

(** X3: with the package manager fixed to npm, no run ever calls
    [corepack enable]. *)
Theorem corepack_is_never_enabled E w :
  invoked ["corepack"; "enable"] (started (_run E) w) = 0%nat.
Proof. run_cases E w; reflexivity. Qed.

(** X4: a run that returns normally went through every step: both version
    checks completed with exit code 0, install and build completed, build
    was started exactly once, and the build directory exists at the end. *)
Theorem successful_run_ran_every_step E w :
  fst (_run E w) = Ok tt ->
  (exists r, outcome_of ["node"; "--version"] (started (_run E) w) = Some (Completed r)
             /\ returncode r = 0%Z)
  /\ (exists r, outcome_of ["npm"; "--version"] (started (_run E) w) = Some (Completed r)
                /\ returncode r = 0%Z)
  /\ (exists r, outcome_of ["npm"; "install"] (started (_run E) w) = Some (Completed r))
  /\ (exists r, outcome_of ["npm"; "run"; "build"] (started (_run E) w)
                = Some (Completed r))
  /\ invoked ["npm"; "run"; "build"] (started (_run E) w) = 1%nat
  /\ is_dir E (procs (snd (_run E w))) (build_dir E) = true.
Proof.
  run_cases E w; cbn -[is_dir]; intros H; try discriminate H; exit_codes;
    repeat split; eauto.
Qed.

Lemma successful_run_witness :
  (exists r, outcome_of ["node"; "--version"]
               (started (_run Sample.audit_suggested) Sample.world) = Some (Completed r)
             /\ returncode r = 0%Z)
  /\ (exists r, outcome_of ["npm"; "--version"]
                  (started (_run Sample.audit_suggested) Sample.world) = Some (Completed r)
                /\ returncode r = 0%Z)
  /\ (exists r, outcome_of ["npm"; "install"]
                  (started (_run Sample.audit_suggested) Sample.world) = Some (Completed r))
  /\ (exists r, outcome_of ["npm"; "run"; "build"]
                  (started (_run Sample.audit_suggested) Sample.world)
                = Some (Completed r))
  /\ invoked ["npm"; "run"; "build"]
       (started (_run Sample.audit_suggested) Sample.world) = 1%nat
  /\ is_dir Sample.audit_suggested
       (procs (snd (_run Sample.audit_suggested Sample.world)))
       (build_dir Sample.audit_suggested) = true.
Proof.
  apply (successful_run_ran_every_step Sample.audit_suggested Sample.world).
  reflexivity.
Defined.

(** X5: whatever exception the manifest check raises (unreadable file,
    bytes that are not UTF-8, syntax error, a value of the wrong type, a
    version that cannot be written to the log), the run ends with that
    exception in the state the check left, and no subprocess is started. *)
Theorem manifest_failure_stops_the_run E w e :
  fst (_check_package_json E w) = Raise e ->
  _run E w = _check_package_json E w
  /\ started (_run E) w = [].
Proof.
  intros H. destruct (check_package_json_outcome E w) as [ops [Hw _]].
  destruct (_check_package_json E w) as [r w1] eqn:Hck.
  cbn [fst snd] in H, Hw. subst r w1.
  unfold started. rewrite (run_manifest_failure E w e _ Hck).
  cbn [snd procs logged set_log]. rewrite skipn_self. split; reflexivity.
Qed.

Lemma manifest_failure_witness :
  _run Sample.number_manifest Sample.world
  = _check_package_json Sample.number_manifest Sample.world
  /\ started (_run Sample.number_manifest) Sample.world = [].
Proof.
  apply (manifest_failure_stops_the_run Sample.number_manifest Sample.world TypeError).
  reflexivity.
Defined.

(** X7: the outcome of the audit is never inspected: when it completed,
    whatever its exit code, build is started once; a failure to start it
    or to decode its output ends the run with that error before build. *)
Theorem audit_outcome_is_not_inspected E w out :
  outcome_of ["npm"; "audit"] (started (_run E) w) = Some out ->
  match out with
  | Completed _ => invoked ["npm"; "run"; "build"] (started (_run E) w) = 1%nat
  | SpawnFailed e =>
      fst (_run E w) = Raise (OSError e)
      /\ invoked ["npm"; "run"; "build"] (started (_run E) w) = 0%nat
  | Undecodable d =>
      fst (_run E w) = Raise (UnicodeDecodeError d)
      /\ invoked ["npm"; "run"; "build"] (started (_run E) w) = 0%nat
  end.
Proof.
  run_cases E w; cbn; intros H; try discriminate H;
    injection H as <-; try reflexivity; split; reflexivity.
Qed.

Lemma audit_outcome_witness :
  invoked ["npm"; "run"; "build"]
    (started (_run Sample.audit_suggested) Sample.world) = 1%nat.
Proof.
  apply (audit_outcome_is_not_inspected Sample.audit_suggested Sample.world
           (Sample.exit 1 "found 8 vulnerabilities")).
  reflexivity.
Defined.

(** X14: a toolchain check that returns hands back the result of its
    subprocess, and that result has exit code 0. *)
Theorem toolchain_checks_return_exit_code_zero E w r :
  (fst (_check_node_installed E w) = Ok r ->
   subprocess_run E (procs w) (node_version E) = Completed r
   /\ returncode r = 0%Z)
  /\ (fst (_check_pkgmgr_installed E w) = Ok r ->
      subprocess_run E (procs w) (pkgmgr_version E) = Completed r
      /\ returncode r = 0%Z).
Proof.
  split.
  - unfold _check_node_installed.
    rewrite bind_msg_log by solve_encodable. rewrite bind_run_subprocess.
    cbn [procs logged set_log].
    destruct (subprocess_run E (procs w) (node_version E)) as [r0|e|d];
      [|discriminate|discriminate].
    rewrite bind_msg_run.
    destruct (negb (returncode r0 =? 0)%Z) eqn:Hrc; cbn; intros H;
      [discriminate|]. injection H as <-. exit_codes. auto.
  - unfold _check_pkgmgr_installed.
    change (eqb PACKAGE_MGR (lit "yarn")) with false.
    rewrite bind_msg_log by solve_encodable. rewrite bind_run_subprocess.
    cbn [procs logged set_log].
    destruct (subprocess_run E (procs w) (pkgmgr_version E)) as [r0|e|d];
      [|discriminate|discriminate].
    rewrite bind_msg_run, bind_ret.
    destruct (negb (returncode r0 =? 0)%Z) eqn:Hrc; cbn; intros H;
      [discriminate|]. injection H as <-. exit_codes. auto.
Qed.

(** ** The manifest check on values that are not objects *)

(** X6: for a manifest that parses to a value other than an object the
    check never compares versions: it raises [TypeError] on a scalar, on a
    list with an element equal to ["version"] and on a string containing
    ["version"]; on any other list or string it logs that the version is
    missing and returns. *)
Theorem non_object_manifest E w body v :
  open_package_json E = inr body ->
  json_loads E body = JsonValue v ->
  (forall items, v <> PyDict items) ->
  _check_package_json E w =
  if match v with
     | PyList items => existsb (fun x => py_eq_str x (lit "version")) items
     | PyStr s => contains (lit "version") s
     | _ => true
     end
  then (Raise TypeError, logged (checking_manifest E) w)
  else (Ok tt,
        logged (checking_manifest E
                ++ [LWrite (missing_warning ++ os_linesep E); LFlush]) w).
Proof.
  intros Ho Hj Hv.
  assert (Hmiss : msg_ops E missing_warning 0
                  = [LWrite (missing_warning ++ os_linesep E); LFlush])
    by (apply msg_ops_single; reflexivity).
  unfold _check_package_json, with_open_package_json.
  rewrite Ho. rewrite bind_msg_log by solve_encodable.
  unfold try_except_JSONDecodeError, json_load.
  rewrite Hj, bind_ret. cbv beta.
  destruct v; try reflexivity.
  - unfold py_in. rewrite bind_ret. cbv beta.
    destruct (contains (lit "version") s); cbn [negb].
    + reflexivity.
    + rewrite msg_log_exec by reflexivity. rewrite logged_logged.
      fold missing_warning.
      rewrite Hmiss. reflexivity.
  - unfold py_in. rewrite bind_ret. cbv beta.
    destruct (existsb _ items); cbn [negb].
    + reflexivity.
    + rewrite msg_log_exec by reflexivity. rewrite logged_logged.
      fold missing_warning.
      rewrite Hmiss. reflexivity.
  - exfalso. apply (Hv items). reflexivity.
Qed.

Lemma non_object_manifest_witness :
  _check_package_json Sample.number_manifest Sample.world
  = (Raise TypeError, logged (checking_manifest Sample.number_manifest) Sample.world).
Proof.
  apply (non_object_manifest Sample.number_manifest Sample.world (lit "42") (PyInt 42));
    [reflexivity | reflexivity | discriminate].
Defined.

(** ** The entry point *)

(** X9: when [setup.log] cannot be created, [initialize] raises that error
    of the operating system and leaves the process as it found it: no log
    operation, no subprocess, the working directory restored. *)
Theorem unopenable_log_aborts_before_the_run E version build_data w e :
  open_setup_log E = Some e ->
  initialize E version build_data w = (Raise (OSError e), w).
Proof.
  intros Ho. apply initialize_unopenable_log. exact Ho.
Qed.

Lemma unopenable_log_witness :
  initialize Sample.locked_log (lit "1.0.0") [] Sample.world
  = (Raise (OSError Sample.EACCES), Sample.world).
Proof.
  apply (unopenable_log_aborts_before_the_run
           Sample.locked_log (lit "1.0.0") [] Sample.world Sample.EACCES).
  reflexivity.
Defined.


Example run_result_replaced_by_final_chdir :
  fst (_run Sample.start_directory_removed
         (set_log [] (set_cwd (lit "/srv/streamlit-javascript") Sample.world)))
    = Ok tt
  /\ fst (initialize Sample.start_directory_removed (lit "1.0.0") [] Sample.world)
     = Raise (OSError no_such_directory).
Proof. split; reflexivity. Qed.

(** ** More on the logging call *)

(** X11: a message without any visible character, the empty message
    included, writes nothing: the call only flushes. *)
Theorem blank_message_only_flushes E msg indent w :
  nonblank msg = false ->
  _msg_log E msg indent w = (Ok tt, logged [LFlush] w).
Proof.
  intros Hb. rewrite msg_log_outcome. unfold msg_ops, logged_lines.
  rewrite nonblank_all_space in Hb. apply negb_false_iff in Hb.
  rewrite filter_none; [reflexivity|].
  intros line Hin. rewrite nonblank_all_space. apply negb_false_iff.
  apply (splitlines_from_forallb is_space (List.length msg) msg [] line);
    [lia | reflexivity | exact Hb | exact Hin].
Qed.

Lemma blank_message_witness :
  _msg_log (Sample.healthy []) ([32; 9; 10; 13; 10; 32]%N) 4 Sample.world
  = (Ok tt, logged [LFlush] Sample.world).
Proof.
  apply (blank_message_only_flushes (Sample.healthy []) [32; 9; 10; 13; 10; 32]%N 4
           Sample.world).
  reflexivity.
Defined.

Lemma logged_lines_one_line E msg indent :
  single_line msg = true -> nonblank msg = true ->
  logged_lines E msg indent =
  [repeat 32%N (Z.to_nat indent) ++ msg ++ os_linesep E].
Proof.
  intros Hs Hb. unfold logged_lines.
  rewrite splitlines_single; [|exact Hs|intros ->; discriminate].
  simpl. rewrite Hb. reflexivity.
Qed.

Lemma msg_ops_one_line E msg indent :
  single_line msg = true -> nonblank msg = true ->
  msg_ops E msg indent =
  [LWrite (repeat 32%N (Z.to_nat indent) ++ msg ++ os_linesep E); LFlush].
Proof.
  intros Hs Hb. unfold msg_ops.
  rewrite (logged_lines_one_line E msg indent Hs Hb). reflexivity.
Qed.

(** X12: a message with a visible character and no line boundary is one
    line, the message after [indent] spaces (none when the indent is
    negative) and before the platform line separator.  When the message
    can be encoded the call writes that line and flushes; when it cannot,
    the write raises [UnicodeEncodeError] with that line, and the log is
    left as it was, without a flush. *)
Theorem single_line_message_is_one_write E msg indent w :
  single_line msg = true -> nonblank msg = true ->
  _msg_log E msg indent w =
  if encodable msg
  then (Ok tt,
        logged [LWrite (repeat 32%N (Z.to_nat indent) ++ msg ++ os_linesep E);
                LFlush] w)
  else (Raise (UnicodeEncodeError
                 (repeat 32%N (Z.to_nat indent) ++ msg ++ os_linesep E)),
        w).
Proof.
  intros Hs Hb. rewrite msg_log_outcome. unfold msg_ops.
  rewrite (logged_lines_one_line E msg indent Hs Hb).
  cbn [first_unencodable]. rewrite encodable_padded.
  destruct (encodable msg); [reflexivity|].
  cbn [map]. rewrite logged_nil. reflexivity.
Qed.

Lemma single_line_message_witness :
  _msg_log (Sample.healthy []) (lit "Found build directory") 2 Sample.world
  = (Ok tt,
     logged [LWrite (lit "  Found build directory" ++ Sample.newline); LFlush]
            Sample.world).
Proof.
  apply (single_line_message_is_one_write (Sample.healthy [])
           (lit "Found build directory") 2 Sample.world); reflexivity.
Defined.

Example unencodable_line_is_not_written :
  _msg_log (Sample.healthy []) (lit "v" ++ [55296%N]) 2 Sample.world
  = (Raise (UnicodeEncodeError (lit "  v" ++ [55296%N] ++ Sample.newline)),
     Sample.world).
Proof. reflexivity. Qed.

Lemma single_line_uint d : single_line (lit (NilEmpty.string_of_uint d)) = true.
Proof.
  induction d; cbn [NilEmpty.string_of_uint]; rewrite ?lit_cons;
    try reflexivity; cbn [single_line forallb]; fold (single_line (lit (NilEmpty.string_of_uint d)));
    rewrite IHd; reflexivity.
Qed.

(** The decimal text of an integer has no line boundary. *)
Lemma single_line_of_int n : single_line (of_int n) = true.
Proof.
  assert (Hu : forall d, single_line (lit (NilZero.string_of_uint d)) = true).
  { intros d. destruct d; try reflexivity;
      match goal with
      | |- single_line (lit (NilZero.string_of_uint ?x)) = true =>
          exact (single_line_uint x)
      end. }
  unfold of_int, NilZero.string_of_int.
  destruct (Z.to_int n) as [d|d]; [apply Hu|].
  rewrite lit_cons. cbn [single_line forallb].
  change (true && single_line (lit (NilZero.string_of_uint d)) = true).
  rewrite Hu. reflexivity.
Qed.

(** X13: logging a subprocess result never fails and hands the result
    back unchanged; it writes the return code on one line, then the
    heading [STDOUT:], the non-blank lines of the captured output two
    spaces deeper, the heading [STDERR:] and the error output likewise,
    flushing after each of the five parts. *)
Theorem msg_run_layout E r indent w :
  let pad := repeat 32%N (Z.to_nat indent) in
  _msg_run E r indent w =
  (Ok r,
   logged ([LWrite (pad ++ lit "RC:" ++ of_int (returncode r) ++ os_linesep E); LFlush;
            LWrite (pad ++ lit "STDOUT:" ++ os_linesep E); LFlush]
           ++ map LWrite (logged_lines E (stdout r) (indent + 2)) ++ [LFlush]
           ++ [LWrite (pad ++ lit "STDERR:" ++ os_linesep E); LFlush]
           ++ map LWrite (logged_lines E (stderr r) (indent + 2)) ++ [LFlush]) w).
Proof.
  cbv zeta. rewrite msg_run_exec. unfold run_ops.
  rewrite (msg_ops_one_line E (lit "RC:" ++ of_int (returncode r)) indent);
    [|rewrite single_line_app, single_line_of_int; reflexivity|reflexivity].
  rewrite (msg_ops_one_line E (lit "STDOUT:") indent) by reflexivity.
  rewrite (msg_ops_one_line E (lit "STDERR:") indent) by reflexivity.
  unfold msg_ops. rewrite <- !app_assoc. reflexivity.
Qed.

Lemma linesep_is_space E : forallb is_space (os_linesep E) = true.
Proof. unfold os_linesep. destruct (platform E); reflexivity. Qed.

Lemma visible_logged_lines E indent ls :
  visible (List.concat
             (map (fun line => repeat 32%N (Z.to_nat indent) ++ line ++ os_linesep E)
                  ls))
  = visible (List.concat ls).
Proof.
  induction ls as [|l ls IH]; [reflexivity|].
  cbn [map List.concat]. rewrite !visible_app, IH, visible_repeat_space.
  rewrite (visible_all_space _ (linesep_is_space E)), app_nil_r. reflexivity.
Qed.

(** The visible characters of the lines of a message are those of the
    message. *)
Lemma visible_of_logged_lines E msg indent :
  visible (List.concat (logged_lines E msg indent)) = visible msg.
Proof.
  unfold logged_lines. rewrite visible_logged_lines, visible_nonblank_lines.
  unfold splitlines.
  rewrite (visible_splitlines_from (List.length msg) msg []) by lia.
  reflexivity.
Qed.

(** X15: a logging call adds no visible character and changes none: the
    visible characters it writes are an initial part of those of the
    message, and all of them when the call returns. *)
Theorem msg_log_keeps_visible_characters E msg indent w :
  exists rest,
    visible (List.concat (written (log_file w))) ++ visible msg
    = visible (List.concat (written (log_file (snd (_msg_log E msg indent w)))))
      ++ rest
    /\ match fst (_msg_log E msg indent w) with
       | Ok _ => rest = []
       | Raise _ => True
       end.
Proof.
  rewrite msg_log_outcome.
  destruct (first_unencodable (logged_lines E msg indent)) as [[before bad]|] eqn:Hf;
    cbn [fst snd log_file logged set_log].
  - destruct (first_unencodable_some _ _ _ Hf) as [rest [Hl _]].
    exists (visible (List.concat (bad :: rest))). split; [|exact I].
    rewrite written_app, written_writes, concat_app, visible_app, <- app_assoc.
    f_equal.
    rewrite <- visible_app, <- concat_app.
    rewrite <- (visible_of_logged_lines E msg indent), Hl.
    reflexivity.
  - exists []. split; [|reflexivity].
    unfold msg_ops. rewrite !written_app, written_writes. cbn [written].
    rewrite !app_nil_r, concat_app, visible_app, visible_of_logged_lines.
    reflexivity.
Qed.

Example msg_log_keeps_visible_example :
  visible (List.concat (written (log_file (snd
     (_msg_log (Sample.healthy [])
               (lit "added 3 packages" ++ [13; 10; 10]%N ++ lit " done ") 2
               Sample.world)))))
  = lit "added3packagesdone".
Proof. reflexivity. Qed.

(** ** The life of the log file *)

Lemma last_flush_app a b :
  last a LFlush = LFlush -> last b LFlush = LFlush ->
  last (a ++ b) LFlush = LFlush.
Proof.
  intros Ha Hb. induction a as [|x a IH]; [exact Hb|].
  destruct a as [|y a].
  - simpl. destruct b; [exact Ha | exact Hb].
  - change (last (x :: (y :: a) ++ b) LFlush) with (last ((y :: a) ++ b) LFlush).
    apply IH. exact Ha.
Qed.

Lemma last_default_irrelevant (l : list log_op) d d' :
  l <> [] -> last l d = last l d'.
Proof.
  induction l as [|x l IH]; [contradiction|]. intros _.
  destruct l as [|y l]; [reflexivity|].
  change (last (y :: l) d = last (y :: l) d'). apply IH. discriminate.
Qed.

Lemma msg_ops_clean E msg indent :
  existsb is_close (msg_ops E msg indent) = false
  /\ last (msg_ops E msg indent) LFlush = LFlush
  /\ msg_ops E msg indent <> [].
Proof.
  unfold msg_ops. generalize (logged_lines E msg indent). intros ls.
  repeat split.
  - rewrite existsb_app. simpl. rewrite orb_false_r.
    induction ls; [reflexivity | exact IHls].
  - apply last_last.
  - destruct ls; discriminate.
Qed.

Lemma logs_cleanly_ret {A} (a : A) : logs_cleanly (ret a).
Proof. intros w. exists []. rewrite app_nil_r. repeat split. Qed.

Lemma logs_cleanly_raise {A} e : logs_cleanly (@raise A e).
Proof. intros w. exists []. rewrite app_nil_r. repeat split. Qed.

Lemma existsb_is_close_writes ls : existsb is_close (map LWrite ls) = false.
Proof. induction ls as [|l ls IH]; [reflexivity | exact IH]. Qed.

Lemma logs_cleanly_bind {A B} (m : M A) (k : A -> M B) :
  logs_cleanly m -> (forall a, logs_cleanly (k a)) -> logs_cleanly (bind m k).
Proof.
  intros Hm Hk w. unfold bind. destruct (Hm w) as [ops1 [H1 [C1 L1]]].
  destruct (m w) as [[a|e] w1]; cbn [snd] in *.
  - destruct (Hk a w1) as [ops2 [H2 [C2 L2]]].
    exists (ops1 ++ ops2). rewrite H2, H1, app_assoc. repeat split.
    + rewrite existsb_app, C1, C2. reflexivity.
    + intros Hr. apply last_flush_app; [apply L1; reflexivity | apply L2; exact Hr].
  - exists ops1. repeat split; assumption.
Qed.

Lemma logs_cleanly_if {A} (b : bool) (m1 m2 : M A) :
  logs_cleanly m1 -> logs_cleanly m2 -> logs_cleanly (if b then m1 else m2).
Proof. destruct b; auto. Qed.

Lemma logs_cleanly_msg_log E msg indent : logs_cleanly (_msg_log E msg indent).
Proof.
  intros w. rewrite msg_log_outcome.
  destruct (first_unencodable _) as [[before bad]|].
  - exists (map LWrite before). split; [reflexivity|].
    split; [apply existsb_is_close_writes | discriminate].
  - exists (msg_ops E msg indent).
    destruct (msg_ops_clean E msg indent) as [C [L _]].
    split; [reflexivity|]. split; [exact C | intros _; exact L].
Qed.

Lemma logs_cleanly_run_subprocess E inv : logs_cleanly (run_subprocess E inv).
Proof.
  intros w. exists []. rewrite app_nil_r. unfold run_subprocess.
  destruct (subprocess_run E (procs w) inv); repeat split.
Qed.

Lemma logs_cleanly_path_is_dir E p : logs_cleanly (path_is_dir E p).
Proof. intros w. exists []. rewrite app_nil_r. repeat split. Qed.

Lemma logs_cleanly_try_except {A} (body : M A) handler :
  logs_cleanly body -> (forall msg doc pos, logs_cleanly (handler msg doc pos)) ->
  logs_cleanly (try_except_JSONDecodeError body handler).
Proof.
  intros Hb Hh w. unfold try_except_JSONDecodeError.
  destruct (Hb w) as [ops1 [H1 [C1 L1]]].
  destruct (body w) as [[a|e] w1]; cbn [snd] in *.
  - exists ops1. repeat split; assumption.
  - destruct e; try (exists ops1; repeat split; assumption).
    destruct (Hh msg doc pos w1) as [ops2 [H2 [C2 L2]]].
    exists (ops1 ++ ops2). rewrite H2, H1, app_assoc. repeat split.
    + rewrite existsb_app, C1, C2. reflexivity.
    + intros Hr. apply last_flush_app; [apply L1; reflexivity | apply L2; exact Hr].
Qed.

Lemma logs_cleanly_py_in key x : logs_cleanly (py_in key x).
Proof. destruct x; first [apply logs_cleanly_ret | apply logs_cleanly_raise]. Qed.

Lemma logs_cleanly_py_getitem x key : logs_cleanly (py_getitem x key).
Proof.
  destruct x; try apply logs_cleanly_raise. simpl.
  destruct (find _ _); [apply logs_cleanly_ret | apply logs_cleanly_raise].
Qed.

Lemma logs_cleanly_json_load E text : logs_cleanly (json_load E text).
Proof.
  unfold json_load.
  destruct (json_loads E text);
    [apply logs_cleanly_ret | apply logs_cleanly_raise | apply logs_cleanly_raise].
Qed.

Create HintDb log_frame.
#[local] Hint Resolve logs_cleanly_ret logs_cleanly_raise logs_cleanly_msg_log
  logs_cleanly_run_subprocess logs_cleanly_path_is_dir logs_cleanly_py_in
  logs_cleanly_py_getitem logs_cleanly_json_load : log_frame.

Ltac log_frame :=
  repeat first
    [ solve [auto with log_frame]
    | apply logs_cleanly_bind; [|intros ?; cbv beta]
    | apply logs_cleanly_if
    | apply logs_cleanly_try_except; [|intros ? ? ?; cbv beta] ].

(** Every step appends whole, flushed batches to the log. *)
Lemma logs_cleanly_run E : logs_cleanly (_run E).
Proof.
  unfold _run, _check_package_json, with_open_package_json,
    _check_need_protobuf, _show_msg_if_build_dir_exists,
    _show_msg_if_modules_dir_exists, _check_node_installed,
    _check_pkgmgr_installed, _run_install, _run_npm_audit, _run_build,
    _check_build_output_ok, _msg_run.
  destruct (open_package_json E); log_frame.
Qed.

(** The log of a run begins with the heading of the manifest check. *)
Lemma run_log E w :
  exists ops,
    log_file (snd (_run E w)) = (log_file w ++ checking_manifest E) ++ ops
    /\ existsb is_close ops = false
    /\ (is_encode_error (fst (_run E w)) = false -> last ops LFlush = LFlush).
Proof.
  unfold _run, _check_package_json.
  rewrite !bind_assoc. rewrite bind_msg_log by solve_encodable.
  match goal with
  | |- context [bind ?m ?k (logged ?o w)] =>
      assert (Hc : logs_cleanly (bind m k))
  end.
  { unfold with_open_package_json, _check_need_protobuf,
      _show_msg_if_build_dir_exists, _show_msg_if_modules_dir_exists,
      _check_node_installed, _check_pkgmgr_installed, _run_install,
      _run_npm_audit, _run_build, _check_build_output_ok, _msg_run.
    destruct (open_package_json E); log_frame. }
  apply (Hc (logged (msg_ops E (lit "Checking package.json version...") 0) w)).
Qed.

(** X8: when [setup.log] opens, the log of a run of [initialize] holds
    nothing from before the run, begins with the heading of the manifest
    check and ends with the single close, on every exit, an exception
    included; unless a write to the log failed in the run, a flush comes
    just before the close. *)
Theorem initialize_log_lifecycle E version build_data w :
  open_setup_log E = None ->
  exists ops,
    log_file (snd (initialize E version build_data w))
      = checking_manifest E ++ ops ++ [LClose]
    /\ existsb is_close (checking_manifest E ++ ops) = false
    /\ (is_encode_error
          (fst (_run E (set_log [] (set_cwd (path_str E (PACKAGE_DIR E)) w))))
        = false ->
        last (checking_manifest E ++ ops) LClose = LFlush).
Proof.
  intros Ho.
  assert (Hlog : log_file (snd (initialize E version build_data w))
                 = log_file (snd (_run E (set_log []
                                    (set_cwd (path_str E (PACKAGE_DIR E)) w))))
                   ++ [LClose]).
  { rewrite (initialize_runs_in_general E version build_data w Ho). cbv zeta.
    destruct (removed_since E (procs w) _ (cwd w)); reflexivity. }
  rewrite Hlog.
  destruct (run_log E (set_log [] (set_cwd (path_str E (PACKAGE_DIR E)) w)))
    as [ops [H [C L]]].
  destruct (msg_ops_clean E (lit "Checking package.json version...") 0)
    as [Cc [Lc Nc]].
  fold (checking_manifest E) in Cc, Lc, Nc.
  exists ops. rewrite H.
  cbn [log_file set_log app]. rewrite <- app_assoc.
  split; [reflexivity|]. split.
  - rewrite existsb_app, Cc, C. reflexivity.
  - intros Henc. rewrite (last_default_irrelevant _ LClose LFlush).
    + apply last_flush_app; [exact Lc | apply L; exact Henc].
    + intros Hnil. apply app_eq_nil in Hnil. destruct Hnil as [Hnil _].
      contradiction.
Qed.

Lemma initialize_log_lifecycle_witness :
  exists ops,
    log_file (snd (initialize Sample.node_not_found (lit "1.0.0") [] Sample.world))
      = checking_manifest Sample.node_not_found ++ ops ++ [LClose]
    /\ existsb is_close (checking_manifest Sample.node_not_found ++ ops) = false
    /\ last (checking_manifest Sample.node_not_found ++ ops) LClose = LFlush.
Proof.
  destruct (initialize_log_lifecycle Sample.node_not_found (lit "1.0.0") []
              Sample.world eq_refl) as [ops [Hlog [Hclose Hflush]]].
  exists ops. split; [exact Hlog|]. split; [exact Hclose|].
  apply Hflush. reflexivity.
Defined.

Example failed_write_leaves_no_flush_before_close :
  initialize Sample.half_written_version (lit "1.0.0") [] Sample.world
  = (Raise (UnicodeEncodeError [55296%N; 10%N]),
     mkWorld (lit "/home/dev")
       [LWrite (lit "Checking package.json version..." ++ Sample.newline); LFlush;
        LWrite (lit "WARNING: package.json:version should be 1.42.0 not 1.0.0"
                ++ Sample.newline);
        LClose] []).
Proof. reflexivity. Qed.

(** ** What the probes of the directories can change *)

























(** ** Which programs are run, and where *)

(** X17: a run starts no program but node and npm, each named by the
    first word of its command line: the two version checks, [node
    --version] and [npm --version], run in the package directory; install,
    audit and build, all three by npm, run in the frontend directory. *)
Theorem only_node_and_npm_are_run E w ev :
  In ev (started (_run E) w) ->
  hd [] (args (fst ev)) = executable (fst ev)
  /\ ((args (fst ev) = [lit "node"; lit "--version"]
       /\ executable (fst ev) = lit "node"
       /\ run_cwd (fst ev) = path_str E (PACKAGE_DIR E))
      \/ (args (fst ev) = [lit "npm"; lit "--version"]
          /\ executable (fst ev) = lit "npm"
          /\ run_cwd (fst ev) = path_str E (PACKAGE_DIR E))
      \/ (In (args (fst ev))
             [[lit "npm"; lit "install"]; [lit "npm"; lit "audit"];
              [lit "npm"; lit "run"; lit "build"]]
          /\ executable (fst ev) = lit "npm"
          /\ run_cwd (fst ev) = path_str E (frontend_dir E))).
Proof.
  run_cases E w; cbn [In]; intros H;
    repeat match goal with
           | H : _ \/ _ |- _ => destruct H as [H|H]
           | H : False |- _ => destruct H
           end;
    subst ev; cbn [fst];
    (split; [reflexivity|]);
    first [ left; repeat split; reflexivity
          | right; left; repeat split; reflexivity
          | right; right; split;
            [first [ left; reflexivity
                   | right; left; reflexivity
                   | right; right; left; reflexivity ]
            | split; reflexivity ] ].
Qed.

Lemma only_node_and_npm_witness :
  hd [] (args (pkgmgr_version Sample.audit_suggested))
  = executable (pkgmgr_version Sample.audit_suggested)
  /\ ((args (pkgmgr_version Sample.audit_suggested) = [lit "node"; lit "--version"]
       /\ executable (pkgmgr_version Sample.audit_suggested) = lit "node"
       /\ run_cwd (pkgmgr_version Sample.audit_suggested)
          = path_str Sample.audit_suggested (PACKAGE_DIR Sample.audit_suggested))
      \/ (args (pkgmgr_version Sample.audit_suggested) = [lit "npm"; lit "--version"]
          /\ executable (pkgmgr_version Sample.audit_suggested) = lit "npm"
          /\ run_cwd (pkgmgr_version Sample.audit_suggested)
             = path_str Sample.audit_suggested (PACKAGE_DIR Sample.audit_suggested))
      \/ (In (args (pkgmgr_version Sample.audit_suggested))
             [[lit "npm"; lit "install"]; [lit "npm"; lit "audit"];
              [lit "npm"; lit "run"; lit "build"]]
          /\ executable (pkgmgr_version Sample.audit_suggested) = lit "npm"
          /\ run_cwd (pkgmgr_version Sample.audit_suggested)
             = path_str Sample.audit_suggested (frontend_dir Sample.audit_suggested))).
Proof.
  apply (only_node_and_npm_are_run Sample.audit_suggested Sample.world
           (pkgmgr_version Sample.audit_suggested, Sample.exit 0 "10.2.4")).
  right. left. reflexivity.
Defined.
